(** * Daily session expiry job: [src/jobs/sessionExpiry.ts]

    A shallow embedding of the two rollover entry points
    ([runSessionExpiryForDate] and the scheduler's [runForDate]) and of the
    timer loop of [scheduleSessionExpiry], followed by the properties of the
    job that can be settled on that embedding.

    The job talks to three things that are not part of the file: the entity
    classes and the TypeORM data source, the luxon date library and the
    host's timers.  Each is modelled by a small module of its own, kept
    next to the place where the job uses it. *)

From Stdlib Require Import Ascii String.
From stdpp Require Import gmap strings list.

Local Open Scope string_scope.
Local Open Scope Z_scope.
Local Open Scope list_scope.

(** ** Entities *)

(** Modelled from the spec: the enum [StatusLeito] of [entities/Leito.ts]
    ("vacant, pending, occupied, maintenance-variants"); the job itself only
    names [PENDENTE]. *)
Inductive StatusLeito : Type :=
| VAGO
| PENDENTE
| OCUPADO
| MANUT (variante : string).

(** Modelled from the spec: the enum [StatusSessaoAvaliacao] of
    [entities/AvaliacaoSCP.ts] ("released, expired, etc."); the job only
    names [EXPIRADA]. *)
Inductive StatusSessaoAvaliacao : Type :=
| ATIVA
| LIBERADA
| EXPIRADA.

#[global] Instance StatusLeito_eq_dec : EqDecision StatusLeito.
Proof. solve_decision. Defined.

#[global] Instance StatusSessaoAvaliacao_eq_dec : EqDecision StatusSessaoAvaliacao.
Proof. solve_decision. Defined.

(** A JS [Date]: milliseconds since the epoch.  [None] is a date the
    model has no instant for: the "Invalid Date" that [toJSDate] gives for
    an invalid [DateTime], and the date luxon reads from a string in a form
    the model does not read (see [Luxon.parseISODate]). *)
Definition JSDate : Type := option Z.

(** Modelled from the spec: the entity [Leito] (identifier, number, status).
    Columns the job reads through [?? null] are options. *)
Module Leito.
Record t : Type := mk {
  id : string;
  numero : option string;
  status : option StatusLeito
}.
End Leito.

(** Modelled from the spec: the hospital a unit belongs to; the job reads
    its [id] only. *)
Module Hospital.
Record t : Type := mk { id : string }.
End Hospital.

(** Modelled from the spec: the unit of an assessment, with its optional
    hospital as loaded by the relation [unidade.hospital]. *)
Module Unidade.
Record t : Type := mk {
  id : string;
  hospital : option Hospital.t
}.
End Unidade.

(** Modelled from the spec: the author of an assessment; the job reads
    [id] and [nome]. *)
Module Autor.
Record t : Type := mk {
  id : string;
  nome : string
}.
End Autor.

(** Modelled from the spec: the entity [AvaliacaoSCP] as [find] returns it,
    with the relations [leito], [unidade], [unidade.hospital] and [autor]
    loaded ([None] is a null relation). *)
Module AvaliacaoSCP.
Record t : Type := mk {
  id : string;
  dataAplicacao : string;
  leito : option Leito.t;
  unidade : option Unidade.t;
  autor : option Autor.t;
  scp : option string;
  totalPontos : option Z;
  classificacao : option string;
  itens : option (list (string * Z));
  statusSessao : StatusSessaoAvaliacao
}.
End AvaliacaoSCP.

(** Modelled from the spec: the fields of [HistoricoOcupacao] that the job
    fills in (the object literal [h] of lines 46-63 and 125-145). *)
Module HistoricoOcupacao.
Record t : Type := mk {
  leito : Leito.t;
  unidadeId : option string;
  hospitalId : option string;
  leitoNumero : option string;
  leitoStatus : option StatusLeito;
  scp : option string;
  totalPontos : option Z;
  classificacao : option string;
  itens : option (list (string * Z));
  autorId : option string;
  autorNome : option string;
  inicio : JSDate;
  fim : JSDate
}.
End HistoricoOcupacao.

(** ** The date library

    The part of luxon that the job calls.  A valid [DateTime] is an instant
    [ts] (epoch milliseconds) read at an offset [o] (minutes east of UTC);
    its local wall clock is [ts + o * 60000].  The rules of the zone come
    from the host's time zone data and are a parameter [offset] of every
    function that needs them: the offset, in minutes, in force at an
    instant.  Offsets are whole minutes here, as those of America/Sao_Paulo
    are from 1914 on; its local mean time before that, 3 h 06 min 28 s
    behind UTC, is not, and instants that far back are outside the model. *)
Module Luxon.

Definition MS_PER_MINUTE : Z := 60000.
Definition MS_PER_DAY : Z := 86400000.

Record DateTime : Type := mkDT { ts : Z; o : Z }.

Definition isLeapYear (y : Z) : bool :=
  (y mod 4 =? 0) && (negb (y mod 100 =? 0) || (y mod 400 =? 0)).

Definition daysInMonth (y m : Z) : Z :=
  if m =? 2 then (if isLeapYear y then 29 else 28)
  else if (m =? 4) || (m =? 6) || (m =? 9) || (m =? 11) then 30
  else 31.

(** Days between 1970-01-01 and the civil date [y-m-d] (proleptic
    Gregorian calendar, the calendar of [Date.UTC]). *)
Definition daysFromCivil (y m d : Z) : Z :=
  let y' := if m <=? 2 then y - 1 else y in
  let era := y' / 400 in
  let yoe := y' - era * 400 in
  let mp := if 2 <? m then m - 3 else m + 9 in
  let doy := (153 * mp + 2) / 5 + d - 1 in
  let doe := yoe * 365 + yoe / 4 - yoe / 100 + doy in
  era * 146097 + doe - 719468.

(** The civil date of a day number; the inverse of [daysFromCivil]. *)
Definition civilFromDays (z : Z) : Z * Z * Z :=
  let z' := z + 719468 in
  let era := z' / 146097 in
  let doe := z' - era * 146097 in
  let yoe := (doe - doe / 1460 + doe / 36524 - doe / 146096) / 365 in
  let doy := doe - (365 * yoe + yoe / 4 - yoe / 100) in
  let mp := (5 * doy + 2) / 153 in
  let d := doy - (153 * mp + 2) / 5 + 1 in
  let m := if mp <? 10 then mp + 3 else mp - 9 in
  let y := yoe + era * 400 in
  (if m <=? 2 then y + 1 else y, m, d).

(** [fixOffset]: the instant of a local wall-clock time [localTS], from a
    guess [o] of its offset.  A wall-clock time in a gap of the zone is
    pushed forward. *)
Definition fixOffset (offset : Z -> Z) (localTS o : Z) : DateTime :=
  let utcGuess := localTS - o * MS_PER_MINUTE in
  let o2 := offset utcGuess in
  if o =? o2 then mkDT utcGuess o
  else
    let utcGuess' := utcGuess - (o2 - o) * MS_PER_MINUTE in
    let o3 := offset utcGuess' in
    if o2 =? o3 then mkDT utcGuess' o2
    else mkDT (localTS - Z.min o2 o3 * MS_PER_MINUTE) (Z.max o2 o3).

Definition localTS (dt : DateTime) : Z := ts dt + o dt * MS_PER_MINUTE.

(** [DateTime.now().setZone(zone)] at the instant [now]. *)
Definition nowIn (offset : Z -> Z) (now : Z) : DateTime :=
  mkDT now (offset now).

(** [dt.startOf("day")]: the wall clock is set to 00:00:00.000 of its
    day and resolved again from the offset of [dt]. *)
Definition startOfDay (offset : Z -> Z) (dt : DateTime) : DateTime :=
  let l := localTS dt in
  fixOffset offset (l - l mod MS_PER_DAY) (o dt).

(** [dt.plus({ days: n })] and, with a negative [n], [dt.minus]: the
    calendar day of the wall clock moves, its time of day stays. *)
Definition plusDays (offset : Z -> Z) (n : Z) (dt : DateTime) : DateTime :=
  fixOffset offset (localTS dt + n * MS_PER_DAY) (o dt).

(** [dt.minus(ms)] for a number of milliseconds: the instant moves, the
    offset is read again. *)
Definition minusMillis (offset : Z -> Z) (ms : Z) (dt : DateTime) : DateTime :=
  mkDT (ts dt - ms) (offset (ts dt - ms)).

(** [dt.endOf("day")] is [dt.plus({days: 1}).startOf("day").minus(1)]. *)
Definition endOfDay (offset : Z -> Z) (dt : DateTime) : DateTime :=
  minusMillis offset 1 (startOfDay offset (plusDays offset 1 dt)).

(** [dt.toUTC().toJSDate()] keeps the instant. *)
Definition toJSDate (dt : option DateTime) : JSDate := ts <$> dt.

(** *** Reading and writing [yyyy-mm-dd] *)

Definition digitOf (c : ascii) : option Z :=
  let n := Z.of_N (N_of_ascii c) in
  if (48 <=? n) && (n <=? 57) then Some (n - 48) else None.

Fixpoint digitsFrom (acc : Z) (cs : list ascii) : option Z :=
  match cs with
  | [] => Some acc
  | c :: cs' =>
      match digitOf c with
      | Some d => digitsFrom (acc * 10 + d) cs'
      | None => None
      end
  end.

Definition number (cs : list ascii) : option Z := digitsFrom 0 cs.

(** The calendar-date form of [fromISO], [YYYY-MM-DD]: the form of the
    job's argument [dateYYYYMMDD], the one the application stores and the
    scheduler produces.  The fields must name a day that exists.  The
    other forms luxon reads (dates without hyphens, week and ordinal
    dates, dates with a time) are outside this model, which has no
    instant for them; what is proved of the window is proved of a string in
    the calendar-date form. *)
Definition parseISODate (s : string) : option (Z * Z * Z) :=
  match list_ascii_of_string s with
  | [y1; y2; y3; y4; "-"%char; m1; m2; "-"%char; d1; d2] =>
      match number [y1; y2; y3; y4], number [m1; m2], number [d1; d2] with
      | Some y, Some m, Some d =>
          if (1 <=? m) && (m <=? 12) && (1 <=? d) && (d <=? daysInMonth y m)
          then Some (y, m, d)
          else None
      | _, _, _ => None
      end
  | _ => None
  end.

(** [DateTime.fromISO(s, { zone })], evaluated at the instant [now]: the
    first guess of the offset is the one in force now. *)
Definition fromISO (offset : Z -> Z) (now : Z) (s : string) : option DateTime :=
  match parseISODate s with
  | Some (y, m, d) =>
      Some (fixOffset offset (daysFromCivil y m d * MS_PER_DAY) (offset now))
  | None => None
  end.

Definition digitChar (n : Z) : ascii := ascii_of_N (Z.to_N (48 + n mod 10)).

(** [n] written with exactly [k] decimal digits. *)
Fixpoint padStart (k : nat) (n : Z) : list ascii :=
  match k with
  | O => []
  | S k' => padStart k' (n / 10) ++ [digitChar n]
  end.

(** [dt.toISODate()]; years outside 0..9999 are written with a sign and
    six digits. *)
Definition toISODate (dt : DateTime) : string :=
  let '(y, m, d) := civilFromDays (localTS dt / MS_PER_DAY) in
  let year :=
    if (0 <=? y) && (y <=? 9999) then padStart 4 y
    else (if y <? 0 then "-"%char else "+"%char) :: padStart 6 (Z.abs y) in
  string_of_list_ascii
    (year ++ ["-"%char] ++ padStart 2 m ++ ["-"%char] ++ padStart 2 d).

End Luxon.

(** ** The data source

    What the job sees of TypeORM: the tables behind the three repositories,
    and the tables its [relations] option joins in. *)

(** Modelled from the spec: a row of the assessment table; the relations of
    [AvaliacaoSCP] are stored as nullable foreign keys. *)
Module AvaliacaoRow.
Record t : Type := mk {
  id : string;
  dataAplicacao : string;
  leitoId : option string;
  unidadeId : option string;
  autorId : option string;
  scp : option string;
  totalPontos : option Z;
  classificacao : option string;
  itens : option (list (string * Z));
  statusSessao : StatusSessaoAvaliacao
}.

Definition setStatusSessao (s : StatusSessaoAvaliacao) (r : t) : t :=
  mk (id r) (dataAplicacao r) (leitoId r) (unidadeId r) (autorId r) (scp r)
     (totalPontos r) (classificacao r) (itens r) s.
End AvaliacaoRow.

(** Modelled from the spec: a row of the unit table, with the foreign key
    of its hospital. *)
Module UnidadeRow.
Record t : Type := mk {
  id : string;
  hospitalId : option string
}.
End UnidadeRow.

Definition setStatusLeito (s : StatusLeito) (l : Leito.t) : Leito.t :=
  Leito.mk (Leito.id l) (Leito.numero l) (Some s).

Record DataSource : Type := mkDataSource {
  avaliacoes : list AvaliacaoRow.t;
  leitos : list Leito.t;
  unidades : list UnidadeRow.t;
  hospitais : list Hospital.t;
  autores : list Autor.t;
  historicos : list HistoricoOcupacao.t
}.

(** The row of a table with a given primary key. *)
Definition byId {A : Type} (key : A -> string) (rows : list A) (k : string) : option A :=
  List.find (fun r => bool_decide (key r = k)) rows.

(** A relation is loaded by a left join: a null key, or a key without a
    row, loads null. *)
Definition loadUnidade (ds : DataSource) (r : UnidadeRow.t) : Unidade.t :=
  Unidade.mk (UnidadeRow.id r)
    (UnidadeRow.hospitalId r ≫= byId Hospital.id (hospitais ds)).

Definition loadAvaliacao (ds : DataSource) (r : AvaliacaoRow.t) : AvaliacaoSCP.t :=
  AvaliacaoSCP.mk
    (AvaliacaoRow.id r)
    (AvaliacaoRow.dataAplicacao r)
    (AvaliacaoRow.leitoId r ≫= byId Leito.id (leitos ds))
    (loadUnidade ds <$> (AvaliacaoRow.unidadeId r ≫= byId UnidadeRow.id (unidades ds)))
    (AvaliacaoRow.autorId r ≫= byId Autor.id (autores ds))
    (AvaliacaoRow.scp r)
    (AvaliacaoRow.totalPontos r)
    (AvaliacaoRow.classificacao r)
    (AvaliacaoRow.itens r)
    (AvaliacaoRow.statusSessao r).

Definition onDate (d : string) (r : AvaliacaoRow.t) : bool :=
  bool_decide (AvaliacaoRow.dataAplicacao r = d).

(** [avalRepo.find({ where: { dataAplicacao: d },
                     relations: ["leito", "unidade", "unidade.hospital", "autor"] })] *)
Definition find_avaliacoes (d : string) (ds : DataSource) : list AvaliacaoSCP.t :=
  loadAvaliacao ds <$> List.filter (onDate d) (avaliacoes ds).

(** [histRepo.save(ent)]: one row more in the history table. *)
Definition save_historico (ent : HistoricoOcupacao.t) (ds : DataSource) : DataSource :=
  mkDataSource (avaliacoes ds) (leitos ds) (unidades ds) (hospitais ds)
    (autores ds) (historicos ds ++ [ent]).

(** [leitoRepo.createQueryBuilder().update(Leito).set({ status }).execute()]:
    no [where], every row is updated. *)
Definition update_leitos (s : StatusLeito) (ds : DataSource) : DataSource :=
  mkDataSource (avaliacoes ds) (setStatusLeito s <$> leitos ds) (unidades ds)
    (hospitais ds) (autores ds) (historicos ds).

(** [avalRepo.createQueryBuilder().update(AvaliacaoSCP).set({ statusSessao })
      .where('"dataAplicacao" = :d', { d }).execute()] *)
Definition update_avaliacoes (s : StatusSessaoAvaliacao) (d : string)
    (ds : DataSource) : DataSource :=
  mkDataSource
    ((fun r => if onDate d r then AvaliacaoRow.setStatusSessao s r else r)
       <$> avaliacoes ds)
    (leitos ds) (unidades ds) (hospitais ds) (autores ds) (historicos ds).

(** ** The host: state, errors and timers *)

(** What a rejected data-source call throws. *)
Definition Err : Type := string.

(** A timer armed by [setTimeout]. *)
Record Timer : Type := mkTimer { handle : nat; due : Z }.

(** The state the job runs in.  [faults] scripts the data source: every
    call to it takes the head of the list, and fails with the error found
    there, if any; when the list is used up, calls succeed.  [awaiting] is
    the timer callback of [scheduleNext] suspended at its [await]: the date
    string it computed when it fired. *)
Record World : Type := mkWorld {
  db : DataSource;
  faults : list (option Err);
  console : list (string * Err);
  clock : Z;
  timers : list Timer;
  nextHandle : nat;
  awaiting : option string
}.

Definition setDb (ds : DataSource) (w : World) : World :=
  mkWorld ds (faults w) (console w) (clock w) (timers w) (nextHandle w) (awaiting w).
Definition setFaults (fs : list (option Err)) (w : World) : World :=
  mkWorld (db w) fs (console w) (clock w) (timers w) (nextHandle w) (awaiting w).
Definition setConsole (c : list (string * Err)) (w : World) : World :=
  mkWorld (db w) (faults w) c (clock w) (timers w) (nextHandle w) (awaiting w).
Definition setClock (t : Z) (w : World) : World :=
  mkWorld (db w) (faults w) (console w) t (timers w) (nextHandle w) (awaiting w).
Definition setTimers (ts : list Timer) (n : nat) (w : World) : World :=
  mkWorld (db w) (faults w) (console w) (clock w) ts n (awaiting w).
Definition setAwaiting (a : option string) (w : World) : World :=
  mkWorld (db w) (faults w) (console w) (clock w) (timers w) (nextHandle w) a.

(** How a call ends: it returns, or it throws. *)
Inductive Outcome (A : Type) : Type :=
| Returned (a : A)
| Thrown (e : Err).
Arguments Returned {A} a.
Arguments Thrown {A} e.

(** An async function of the job: a state transformer that may throw. *)
Definition Job (A : Type) : Type := World -> Outcome A * World.

Definition ret {A : Type} (a : A) : Job A := fun w => (Returned a, w).

Definition throw {A : Type} (e : Err) : Job A := fun w => (Thrown e, w).

Definition bind {A B : Type} (m : Job A) (k : A -> Job B) : Job B :=
  fun w =>
    match m w with
    | (Returned a, w') => k a w'
    | (Thrown e, w') => (Thrown e, w')
    end.

(** [try { body } catch (e) { handler }] *)
Definition tryCatch {A : Type} (body : Job A) (handler : Err -> Job A) : Job A :=
  fun w =>
    match body w with
    | (Returned a, w') => (Returned a, w')
    | (Thrown e, w') => handler e w'
    end.

Declare Scope job_scope.
Delimit Scope job_scope with job.
Notation "x <- m ;; k" := (bind m (fun x => k))
  (at level 100, m at next level, right associativity) : job_scope.
Notation "m ;;; k" := (bind m (fun _ => k))
  (at level 100, right associativity) : job_scope.

(** One awaited call to the data source. *)
Definition query {A : Type} (f : DataSource -> A * DataSource) : Job A :=
  fun w =>
    match head (faults w) with
    | Some (Some e) => (Thrown e, setFaults (tail (faults w)) w)
    | _ =>
        let '(a, ds) := f (db w) in
        (Returned a, setDb ds (setFaults (tail (faults w)) w))
    end.

(** [console.warn(msg, e)] *)
Definition console_warn (msg : string) (e : Err) : Job unit :=
  fun w => (Returned tt, setConsole (console w ++ [(msg, e)]) w).

(** [for (const x of xs) { await body(x) }] *)
Fixpoint forOf {A : Type} (xs : list A) (body : A -> Job unit) : Job unit :=
  match xs with
  | [] => ret tt
  | x :: rest => (body x ;;; forOf rest body)%job
  end.

(** The repositories of [ds.getRepository]. *)
Module avalRepo.
Definition find (d : string) : Job (list AvaliacaoSCP.t) :=
  query (fun ds => (find_avaliacoes d ds, ds)).
Definition updateStatusSessaoWhereData (s : StatusSessaoAvaliacao) (d : string) : Job unit :=
  query (fun ds => (tt, update_avaliacoes s d ds)).
End avalRepo.

Module histRepo.
(** [histRepo.create(h)] builds the entity from the plain object. *)
Definition create (h : HistoricoOcupacao.t) : HistoricoOcupacao.t := h.
Definition save (ent : HistoricoOcupacao.t) : Job unit :=
  query (fun ds => (tt, save_historico ent ds)).
End histRepo.

Module leitoRepo.
Definition updateStatus (s : StatusLeito) : Job unit :=
  query (fun ds => (tt, update_leitos s ds)).
End leitoRepo.

(** [Date.now()], as luxon reads it. *)
Definition Date_now : Job Z := fun w => (Returned (clock w), w).

(** [setTimeout(callback, delay)]: the host clamps a delay outside
    [1 .. 2^31 - 1] to 1 ms.  The only callback the job ever arms is the
    one of [scheduleNext], so a timer records its handle and due time. *)
Definition setTimeout (delay : Z) (w : World) : nat * World :=
  let delay' := if (1 <=? delay) && (delay <=? 2147483647) then delay else 1 in
  (nextHandle w,
   setTimers (timers w ++ [mkTimer (nextHandle w) (clock w + delay')])
             (S (nextHandle w)) w).

(** [clearTimeout(h)]: a handle that is not armed is ignored. *)
Definition clearTimeout (h : nat) (w : World) : World :=
  setTimers (List.filter (fun t => negb (Nat.eqb (handle t) h)) (timers w))
            (nextHandle w) w.

(** What a rollover never touches: the host's side of the world. *)
Definition sameHost (w w' : World) : Prop :=
  clock w' = clock w /\ timers w' = timers w /\
  nextHandle w' = nextHandle w /\ awaiting w' = awaiting w /\
  console w' = console w.

(** A job that leaves the host's side of the world alone, however it ends. *)
Definition keepsHost {A : Type} (m : Job A) : Prop :=
  forall w o w', m w = (o, w') -> sameHost w w'.

(** The first error a fault script holds for the next [n] calls to the
    data source, if it holds one. *)
Fixpoint firstFault (n : nat) (fs : list (option Err)) : option Err :=
  match n, fs with
  | O, _ => None
  | S _, [] => None
  | S _, Some e :: _ => Some e
  | S n', None :: fs' => firstFault n' fs'
  end.

(** A job that makes [n] calls to the data source: it throws the first
    error the script holds for them, and returns if it holds none, with the
    script that much shorter. *)
Definition makesCalls {A : Type} (n : nat) (m : Job A) : Prop :=
  forall w,
    match firstFault n (faults w) with
    | Some e => exists w', m w = (Thrown e, w')
    | None =>
        exists a w', m w = (Returned a, w') /\ faults w' = drop n (faults w)
    end.

(** A job that leaves the timers and the suspended callback alone. *)
Definition sameTimers (w w' : World) : Prop :=
  timers w' = timers w /\ nextHandle w' = nextHandle w /\
  awaiting w' = awaiting w.

(** Several [histRepo.save] in a row. *)
Definition appendHistoricos (hs : list HistoricoOcupacao.t) (ds : DataSource)
    : DataSource :=
  mkDataSource (avaliacoes ds) (leitos ds) (unidades ds) (hospitais ds)
    (autores ds) (historicos ds ++ hs).

(** ** The job *)

Definition ZONE : string := "America/Sao_Paulo".

Section SessionExpiry.

(** The host's time zone data: the offset from UTC, in minutes, of a
    named zone at an instant. *)
Variable zoneOffset : string -> Z -> Z.

(** *** [runSessionExpiryForDate] (lines 19-93) *)

(** The object literal [h] of lines 41-63, for an assessment [a] whose
    bed [a.leito] is [l]. *)
Definition manual_h (now : Z) (dateYYYYMMDD : string)
    (a : AvaliacaoSCP.t) (l : Leito.t) : HistoricoOcupacao.t :=
  let startLocal :=
    Luxon.startOfDay (zoneOffset ZONE)
      <$> Luxon.fromISO (zoneOffset ZONE) now dateYYYYMMDD in
  let endLocal := Luxon.endOfDay (zoneOffset ZONE) <$> startLocal in
  {| HistoricoOcupacao.leito := l;
     HistoricoOcupacao.unidadeId :=
       match AvaliacaoSCP.unidade a with
       | Some u => Some (Unidade.id u)
       | None => None
       end;
     HistoricoOcupacao.hospitalId :=
       match AvaliacaoSCP.unidade a with
       | Some u =>
           match Unidade.hospital u with
           | Some hosp => Some (Hospital.id hosp)
           | None => None
           end
       | None => None
       end;
     HistoricoOcupacao.leitoNumero := Leito.numero l;
     HistoricoOcupacao.leitoStatus := Leito.status l;
     HistoricoOcupacao.scp := AvaliacaoSCP.scp a;
     HistoricoOcupacao.totalPontos := AvaliacaoSCP.totalPontos a;
     HistoricoOcupacao.classificacao := AvaliacaoSCP.classificacao a;
     HistoricoOcupacao.itens := AvaliacaoSCP.itens a;
     HistoricoOcupacao.autorId :=
       match AvaliacaoSCP.autor a with
       | Some au => Some (Autor.id au)
       | None => None
       end;
     HistoricoOcupacao.autorNome :=
       match AvaliacaoSCP.autor a with
       | Some au => Some (Autor.nome au)
       | None => None
       end;
     HistoricoOcupacao.inicio := Luxon.toJSDate startLocal;
     HistoricoOcupacao.fim := Luxon.toJSDate endLocal |}.

(** The loop of lines 37-66 over the assessments still to visit, with the
    two collections it fills. *)
Fixpoint manual_for (now : Z) (dateYYYYMMDD : string)
    (avals : list AvaliacaoSCP.t)
    (historicos : list HistoricoOcupacao.t) (leitoIdsToReset : gset string)
    : list HistoricoOcupacao.t * gset string :=
  match avals with
  | [] => (historicos, leitoIdsToReset)
  | a :: rest =>
      match AvaliacaoSCP.leito a with
      | None => manual_for now dateYYYYMMDD rest historicos leitoIdsToReset
      | Some l =>
          manual_for now dateYYYYMMDD rest
            (historicos ++ [manual_h now dateYYYYMMDD a l])
            (leitoIdsToReset ∪ {[Leito.id l]})
      end
  end.

(** The [try] block, lines 25-88. *)
Definition runSessionExpiryForDate_try (dateYYYYMMDD : string) : Job unit :=
  (avals <- avalRepo.find dateYYYYMMDD ;;
   now <- Date_now ;;
   let '(historicos, leitoIdsToReset) :=
     manual_for now dateYYYYMMDD avals [] ∅ in
   (if negb (Nat.eqb (length historicos) 0)
    then forOf historicos (fun h =>
           let ent := histRepo.create h in histRepo.save ent)
    else ret tt) ;;;
   leitoRepo.updateStatus PENDENTE ;;;
   avalRepo.updateStatusSessaoWhereData EXPIRADA dateYYYYMMDD)%job.

Definition runSessionExpiryForDate (dateYYYYMMDD : string) : Job unit :=
  tryCatch (runSessionExpiryForDate_try dateYYYYMMDD)
    (fun e => (console_warn "Job manual run failed:" e ;;; throw e)%job).

(** *** [scheduleSessionExpiry] (lines 95-205) *)

(** The object literal [h] of lines 119-145. *)
Definition runForDate_h (now : Z) (dateYYYYMMDD : string)
    (a : AvaliacaoSCP.t) (l : Leito.t) : HistoricoOcupacao.t :=
  let startLocal :=
    Luxon.startOfDay (zoneOffset ZONE)
      <$> Luxon.fromISO (zoneOffset ZONE) now dateYYYYMMDD in
  let endLocal := Luxon.endOfDay (zoneOffset ZONE) <$> startLocal in
  {| HistoricoOcupacao.leito := l;
     HistoricoOcupacao.unidadeId :=
       match AvaliacaoSCP.unidade a with
       | Some u => Some (Unidade.id u)
       | None => None
       end;
     HistoricoOcupacao.hospitalId :=
       match AvaliacaoSCP.unidade a with
       | Some u =>
           match Unidade.hospital u with
           | Some hosp => Some (Hospital.id hosp)
           | None => None
           end
       | None => None
       end;
     HistoricoOcupacao.leitoNumero := Leito.numero l;
     HistoricoOcupacao.leitoStatus := Leito.status l;
     HistoricoOcupacao.scp := AvaliacaoSCP.scp a;
     HistoricoOcupacao.totalPontos := AvaliacaoSCP.totalPontos a;
     HistoricoOcupacao.classificacao := AvaliacaoSCP.classificacao a;
     HistoricoOcupacao.itens := AvaliacaoSCP.itens a;
     HistoricoOcupacao.autorId :=
       match AvaliacaoSCP.autor a with
       | Some au => Some (Autor.id au)
       | None => None
       end;
     HistoricoOcupacao.autorNome :=
       match AvaliacaoSCP.autor a with
       | Some au => Some (Autor.nome au)
       | None => None
       end;
     HistoricoOcupacao.inicio := Luxon.toJSDate startLocal;
     HistoricoOcupacao.fim := Luxon.toJSDate endLocal |}.

(** The loop of lines 115-148. *)
Fixpoint runForDate_for (now : Z) (dateYYYYMMDD : string)
    (avals : list AvaliacaoSCP.t)
    (historicos : list HistoricoOcupacao.t) (leitoIdsToReset : gset string)
    : list HistoricoOcupacao.t * gset string :=
  match avals with
  | [] => (historicos, leitoIdsToReset)
  | a :: rest =>
      match AvaliacaoSCP.leito a with
      | None => runForDate_for now dateYYYYMMDD rest historicos leitoIdsToReset
      | Some l =>
          runForDate_for now dateYYYYMMDD rest
            (historicos ++ [runForDate_h now dateYYYYMMDD a l])
            (leitoIdsToReset ∪ {[Leito.id l]})
      end
  end.

(** The [try] block, lines 101-173. *)
Definition runForDate_try (dateYYYYMMDD : string) : Job unit :=
  (avals <- avalRepo.find dateYYYYMMDD ;;
   now <- Date_now ;;
   let '(historicos, leitoIdsToReset) :=
     runForDate_for now dateYYYYMMDD avals [] ∅ in
   (if negb (Nat.eqb (length historicos) 0)
    then forOf historicos (fun h =>
           let ent := histRepo.create h in histRepo.save ent)
    else ret tt) ;;;
   leitoRepo.updateStatus PENDENTE ;;;
   avalRepo.updateStatusSessaoWhereData EXPIRADA dateYYYYMMDD)%job.

Definition runForDate (dateYYYYMMDD : string) : Job unit :=
  tryCatch (runForDate_try dateYYYYMMDD)
    (fun e => console_warn "Job daily-reset falhou:" e).

(** [scheduleNext] (lines 180-198): arms the timer of the next local
    midnight and returns its handle. *)
Definition scheduleNext (w : World) : nat * World :=
  let now := Luxon.nowIn (zoneOffset ZONE) (clock w) in
  let nextMidnight :=
    Luxon.startOfDay (zoneOffset ZONE) (Luxon.plusDays (zoneOffset ZONE) 1 now) in
  let delay := Luxon.ts nextMidnight - Luxon.ts now in
  setTimeout delay w.

(** The timer callback (lines 185-194) up to its [await]: the date of the
    day before, in the zone of the job. *)
Definition onTimeout_dateStr (w : World) : string :=
  let yesterday :=
    Luxon.startOfDay (zoneOffset ZONE)
      (Luxon.plusDays (zoneOffset ZONE) (-1)
         (Luxon.nowIn (zoneOffset ZONE) (clock w))) in
  Luxon.toISODate yesterday.

(** The call the timer callback awaits: the rollover, unless the date
    string is falsy. *)
Definition onTimeout_await (dateStr : string) : Job unit :=
  if negb (String.eqb dateStr "") then runForDate dateStr else ret tt.

(** [scheduleSessionExpiry ds]: arms the first timer and returns the
    function of lines 202-204, which clears [firstHandle]. *)
Definition scheduleSessionExpiry (w : World) : (World -> World) * World :=
  let '(firstHandle, w') := scheduleNext w in
  (fun w'' => clearTimeout firstHandle w'', w').

(** *** The event loop around the scheduler *)

(** What can happen once the scheduler is started: an armed timer fires,
    some milliseconds late; the rollover the callback awaits settles, some
    milliseconds after it started; the application calls the function that
    [scheduleSessionExpiry] returned. *)
Inductive Event : Type :=
| TimerFires (h : nat) (late : N)
| RolloverSettles (elapsed : N)
| Stop.

Definition step (stop : World -> World) (ev : Event) (w : World) : World :=
  match ev with
  | TimerFires h late =>
      match List.find (fun t => Nat.eqb (handle t) h) (timers w), awaiting w with
      | Some t, None =>
          let w1 := setClock (Z.max (clock w) (due t) + Z.of_N late)
                      (clearTimeout h w) in
          setAwaiting (Some (onTimeout_dateStr w1)) w1
      | _, _ => w
      end
  | RolloverSettles elapsed =>
      match awaiting w with
      | Some dateStr =>
          let w1 := snd (onTimeout_await dateStr (setAwaiting None w)) in
          snd (scheduleNext (setClock (clock w1 + Z.of_N elapsed) w1))
      | None => w
      end
  | Stop => stop w
  end.

Definition run (stop : World -> World) (evs : list Event) (w : World) : World :=
  fold_left (fun w' ev => step stop ev w') evs w.

(** *** Vocabulary of the properties *)

(** The two places a rollover is started from. *)
Inductive EntryPoint : Type :=
| Manual
| Scheduler.

Definition tryBlock (ep : EntryPoint) : string -> Job unit :=
  match ep with
  | Manual => runSessionExpiryForDate_try
  | Scheduler => runForDate_try
  end.

Definition rollover (ep : EntryPoint) : string -> Job unit :=
  match ep with
  | Manual => runSessionExpiryForDate
  | Scheduler => runForDate
  end.

(** The warning each entry point writes in its [catch]. *)
Definition warning (ep : EntryPoint) : string :=
  match ep with
  | Manual => "Job manual run failed:"
  | Scheduler => "Job daily-reset falhou:"
  end.

(** The start of the local day [d] in the zone of the job, as the job
    computes it at the instant [now]. *)
Definition startOfLocalDay (now : Z) (d : string) : option Luxon.DateTime :=
  Luxon.startOfDay (zoneOffset ZONE) <$> Luxon.fromISO (zoneOffset ZONE) now d.

(** The start of the local day after the day that starts at [s]. *)
Definition startOfNextLocalDay (s : Luxon.DateTime) : Luxon.DateTime :=
  Luxon.startOfDay (zoneOffset ZONE) (Luxon.plusDays (zoneOffset ZONE) 1 s).

(** The window the job stores: from the start of the local day to one
    millisecond before the start of the next. *)
Definition dayWindow (now : Z) (d : string) : JSDate * JSDate :=
  (Luxon.ts <$> startOfLocalDay now d,
   (fun s => Luxon.ts (startOfNextLocalDay s) - 1) <$> startOfLocalDay now d).

(** The window in the spec's words: local midnight of the day to local
    midnight of the following day. *)
Definition midnightToMidnight (now : Z) (d : string) : JSDate * JSDate :=
  (Luxon.ts <$> startOfLocalDay now d,
   (fun s => Luxon.ts (startOfNextLocalDay s)) <$> startOfLocalDay now d).

Definition window (h : HistoricoOcupacao.t) : JSDate * JSDate :=
  (HistoricoOcupacao.inicio h, HistoricoOcupacao.fim h).

(** The history records the loop builds for one assessment. *)
Definition snapshotsOf (now : Z) (d : string) (a : AvaliacaoSCP.t)
    : list HistoricoOcupacao.t :=
  match AvaliacaoSCP.leito a with
  | Some l => [manual_h now d a l]
  | None => []
  end.

(** The data source after a rollover of the day [d] that ran to its end
    at the instant [now]. *)
Definition rolled (now : Z) (d : string) (ds : DataSource) : DataSource :=
  update_avaliacoes EXPIRADA d
    (update_leitos PENDENTE
       (appendHistoricos
          (flat_map (snapshotsOf now d) (find_avaliacoes d ds)) ds)).

(** An assessment of the rolled day as the next [find] loads it: its
    session expired, its bed pending. *)
Definition afterRollover (a : AvaliacaoSCP.t) : AvaliacaoSCP.t :=
  AvaliacaoSCP.mk (AvaliacaoSCP.id a) (AvaliacaoSCP.dataAplicacao a)
    (setStatusLeito PENDENTE <$> AvaliacaoSCP.leito a)
    (AvaliacaoSCP.unidade a) (AvaliacaoSCP.autor a) (AvaliacaoSCP.scp a)
    (AvaliacaoSCP.totalPontos a) (AvaliacaoSCP.classificacao a)
    (AvaliacaoSCP.itens a) EXPIRADA.

(** The assessments of a day, as the rollover fetches them. *)
Definition assessmentsOn (d : string) (w : World) : list AvaliacaoSCP.t :=
  find_avaliacoes d (db w).

(** How many history records a rollover owes an assessment. *)
Definition owed (a : AvaliacaoSCP.t) : nat :=
  match AvaliacaoSCP.leito a with
  | Some _ => 1
  | None => 0
  end.

(** The calls to the data source of a rollover that runs to its end: the
    fetch, one [save] for every record owed, the two bulk updates. *)
Definition callsOf (d : string) (w : World) : nat :=
  S (sum_list (owed <$> assessmentsOn d w) + 2).

(** The scheduler waits: no callback is suspended and exactly one timer
    is armed, a later one than the first. *)
Definition armedAgain (firstHandle : nat) (w : World) : Prop :=
  awaiting w = None /\
  exists t, timers w = [t] /\ (firstHandle < handle t < nextHandle w)%nat.

(** The scheduler runs: the callback is suspended at its [await] and no
    timer is armed. *)
Definition rolloverInFlight (firstHandle : nat) (w : World) : Prop :=
  (exists dateStr, awaiting w = Some dateStr) /\
  timers w = [] /\ (firstHandle < nextHandle w)%nat.

Definition loopAlive (firstHandle : nat) (w : World) : Prop :=
  armedAgain firstHandle w \/ rolloverInFlight firstHandle w.

End SessionExpiry.

(** ** A small hospital

    The data used to run the job on concrete inputs: three beds, four
    assessments (two of them on 2024-03-10 with a bed, one on that day
    without a bed, one on the day before), in a zone that is three hours
    behind UTC all year, as America/Sao_Paulo has been since 2019. *)
Module Sample.

Definition zone (_ : string) (_ : Z) : Z := -180.

(** A zone whose clocks go forward one hour at local midnight of
    2018-11-04 (03:00 UTC), from three to two hours behind UTC, as those of
    America/Sao_Paulo did that night. *)
Definition zoneSpringForward (_ : string) (t : Z) : Z :=
  if t <? 1541300400000 then -180 else -120.

Definition leito1 : Leito.t := Leito.mk "L1" (Some "101") (Some OCUPADO).
Definition leito2 : Leito.t := Leito.mk "L2" (Some "102") (Some (MANUT "LIMPEZA")).
Definition leito3 : Leito.t := Leito.mk "L3" None (Some VAGO).

Definition aval1 : AvaliacaoRow.t :=
  AvaliacaoRow.mk "A1" "2024-03-10" (Some "L1") (Some "U1") (Some "C1")
    (Some "FUGULIN") (Some 27) (Some "INTERMEDIARIO") (Some [("q1", 3); ("q2", 4)])
    ATIVA.
Definition aval2 : AvaliacaoRow.t :=
  AvaliacaoRow.mk "A2" "2024-03-10" None (Some "U1") (Some "C1")
    (Some "FUGULIN") (Some 12) (Some "MINIMO") None LIBERADA.
Definition aval3 : AvaliacaoRow.t :=
  AvaliacaoRow.mk "A3" "2024-03-09" (Some "L2") (Some "U2") None
    (Some "PERROCA") (Some 30) None None LIBERADA.
Definition aval4 : AvaliacaoRow.t :=
  AvaliacaoRow.mk "A4" "2024-03-10" (Some "L3") None None
    None None None None ATIVA.

Definition ds : DataSource :=
  {| avaliacoes := [aval1; aval2; aval3; aval4];
     leitos := [leito1; leito2; leito3];
     unidades := [UnidadeRow.mk "U1" (Some "H1"); UnidadeRow.mk "U2" None];
     hospitais := [Hospital.mk "H1"];
     autores := [Autor.mk "C1" "Carla"];
     historicos := [] |}.

(** 2024-03-10T19:46:40Z, late afternoon of 2024-03-10 in the zone. *)
Definition world : World :=
  {| db := ds; faults := []; console := []; clock := 1710100000000;
     timers := []; nextHandle := 1; awaiting := None |}.

(** The same world with a data source whose first call fails. *)
Definition worldFetchFails : World := setFaults [Some "connection lost"] world.

(** The same world with a data source whose third call fails: the
    second [save]. *)
Definition worldSaveFails : World :=
  setFaults [None; None; Some "deadlock detected"] world.

(** The world after the manual rollover of 2024-03-10, and after a second
    one. *)
Definition worldRolled : World :=
  snd (runSessionExpiryForDate zone "2024-03-10" world).

Definition worldRolledTwice : World :=
  snd (runSessionExpiryForDate zone "2024-03-10" worldRolled).

(** The fourth assessment as [find] loads it: a bed, and nothing else. *)
Definition avalBedOnly : AvaliacaoSCP.t := loadAvaliacao ds aval4.

End Sample.

(** ** Further vocabulary

    What the properties of the scheduler's dates and of a rollover that
    fails half way are stated with. *)

(** The year of a 400-year era in which a day of the era falls; the days
    and the years of an era are counted from March 1 of its first year. *)
Definition yoeOfDoe (doe : Z) : Z :=
  (doe - doe / 1460 + doe / 36524 - doe / 146096) / 365.

(** The day of that year, counted from March 1. *)
Definition doyOfDoe (doe : Z) : Z :=
  doe - (365 * yoeOfDoe doe + yoeOfDoe doe / 4 - yoeOfDoe doe / 100).

(** The month and the day of the month of a day of the year counted from
    March 1. *)
Definition civilOfDoy (doy : Z) : Z * Z :=
  let mp := (5 * doy + 2) / 153 in
  (if mp <? 10 then mp + 3 else mp - 9, doy - (153 * mp + 2) / 5 + 1).

(** The day of the year, counted from March 1, of a month and a day. *)
Definition doyOfCivil (m d : Z) : Z :=
  let mp := if 2 <? m then m - 3 else m + 9 in
  (153 * mp + 2) / 5 + d - 1.

(** What holds of every day of a year counted from March 1: it has a month
    and a day of that month, which lead back to it; the last day of a long
    year is February 29. *)
Definition doyChecks (doy : Z) : bool :=
  let '(m, d) := civilOfDoy doy in
  (1 <=? m) && (m <=? 12) && (1 <=? d) && (doyOfCivil m d =? doy) &&
  (if doy =? 365 then (m =? 2) && (d =? 29) else d <=? Luxon.daysInMonth 1 m).

(** [doyChecks] on the [n] days from [doy] on. *)
Fixpoint doyChecksFrom (n : nat) (doy : Z) : bool :=
  match n with
  | O => true
  | S n' => doyChecks doy && doyChecksFrom n' (doy + 1)
  end.

(** The [yyyy-mm-dd] string of a day number. *)
Definition isoOfDay (z : Z) : string :=
  Luxon.toISODate (Luxon.mkDT (z * Luxon.MS_PER_DAY) 0).

(** The local midnight that follows the instant [t], in a zone [c] minutes
    east of UTC. *)
Definition nextLocalMidnight (c t : Z) : Z :=
  t + (Luxon.MS_PER_DAY - (t + c * Luxon.MS_PER_MINUTE) mod Luxon.MS_PER_DAY).

(** One write of a rollover, as a call to the data source. *)
Definition write (f : DataSource -> DataSource) : Job unit :=
  query (fun ds => (tt, f ds)).

(** Writes applied one after the other. *)
Definition applyWrites (fs : list (DataSource -> DataSource)) (ds : DataSource)
    : DataSource :=
  fold_left (fun ds' f => f ds') fs ds.

(** What a rollover may do to the data source, however it ends: append to
    the history table, change the status of a bed, change the session status
    of an assessment. *)
Definition rolloverMayWrite (ds ds' : DataSource) : Prop :=
  unidades ds' = unidades ds /\ hospitais ds' = hospitais ds /\
  autores ds' = autores ds /\
  historicos ds `prefix_of` historicos ds' /\
  Forall2
    (fun l l' => Leito.id l' = Leito.id l /\ Leito.numero l' = Leito.numero l)
    (leitos ds) (leitos ds') /\
  Forall2
    (fun r r' =>
       AvaliacaoRow.setStatusSessao EXPIRADA r'
         = AvaliacaoRow.setStatusSessao EXPIRADA r)
    (avaliacoes ds) (avaliacoes ds').

(** A job whose writes stay within [rolloverMayWrite], however it ends. *)
Definition writesWithin {A : Type} (m : Job A) : Prop :=
  forall w o w', m w = (o, w') -> rolloverMayWrite (db w) (db w').

(** The instant at which a clock [c] minutes east of UTC reads 00:00 of
    the day number [k] (days since 1970-01-01): local midnight of that day
    at that offset. *)
Definition localMidnight (c k : Z) : Z :=
  k * Luxon.MS_PER_DAY - c * Luxon.MS_PER_MINUTE.

(** The zone is at the offset [c] for the [g] minutes either side of the
    instant [t0]: no clock change that close to it. *)
Definition settledAround (offset : Z -> Z) (c g t0 : Z) : Prop :=
  forall t,
    t0 - g * Luxon.MS_PER_MINUTE <= t <= t0 + g * Luxon.MS_PER_MINUTE ->
    offset t = c.

Section MoreVocabulary.

Variable zoneOffset : string -> Z -> Z.

(** The writes of a rollover of the day [d], in the order of its calls:
    one [save] for every record, the bulk update of the beds, the bulk
    update of the sessions.  The records are those built at the instant
    [now] from the assessments fetched in [ds]. *)
Definition writesOf (now : Z) (d : string) (ds : DataSource)
    : list (DataSource -> DataSource) :=
  (save_historico
     <$> flat_map (snapshotsOf zoneOffset now d) (find_avaliacoes d ds))
  ++ [update_leitos PENDENTE; update_avaliacoes EXPIRADA d].

End MoreVocabulary.

(** ** More of the small hospital *)
Module MoreSamples.

(** The world once the scheduler is started, and the timer it armed: due
    at 2024-03-11T03:00:00Z, local midnight. *)
Definition worldArmed : World :=
  snd (scheduleSessionExpiry Sample.zone Sample.world).

Definition firstTimer : Timer := mkTimer 1 1710126000000.

(** The world with a data source whose fifth call fails: the bulk update
    of the sessions of 2024-03-10. *)
Definition worldSessionUpdateFails : World :=
  setFaults [None; None; None; None; Some "statement timeout"] Sample.world.

(** The world after the rollover of a day without assessments. *)
Definition worldRolledEmptyDay : World :=
  snd (runSessionExpiryForDate Sample.zone "2024-03-08" Sample.world).

(** The world after the scheduler's rollover failed at the second [save]
    and the manual one was then run to its end. *)
Definition worldRetried : World :=
  snd (runSessionExpiryForDate Sample.zone "2024-03-10"
         (snd (runForDate Sample.zone "2024-03-10" Sample.worldSaveFails))).

(** The world with a data source that answers the five calls of the
    rollover of 2024-03-10 and fails at the sixth, a call the rollover does
    not make. *)
Definition worldLaterFault : World :=
  setFaults [None; None; None; None; None; Some "server restart"; None]
    Sample.world.

Definition worldLaterFaultRolled : World :=
  snd (runSessionExpiryForDate Sample.zone "2024-03-10" worldLaterFault).

End MoreSamples.

(** ** The summer of 2018

    The same hospital under the clocks of America/Sao_Paulo around its last
    summer time: they went forward one hour at local midnight of 2018-11-04
    (03:00 UTC) and back one hour at local midnight of 2019-02-17
    (02:00 UTC).  2018-11-04 has no midnight and 23 hours; 2019-02-16 has
    25 hours. *)
Module Summer2018.

Definition zone (_ : string) (t : Z) : Z :=
  if t <? 1541300400000 then -180
  else if t <? 1550368800000 then -120
  else -180.

Definition avalNov : AvaliacaoRow.t :=
  AvaliacaoRow.mk "N1" "2018-11-04" (Some "L1") (Some "U1") (Some "C1")
    (Some "FUGULIN") (Some 21) (Some "INTERMEDIARIO") None ATIVA.
Definition avalFeb : AvaliacaoRow.t :=
  AvaliacaoRow.mk "F1" "2019-02-16" (Some "L3") (Some "U1") (Some "C1")
    (Some "FUGULIN") (Some 15) (Some "MINIMO") None ATIVA.

Definition ds : DataSource :=
  {| avaliacoes := [avalNov; avalFeb];
     leitos := leitos Sample.ds;
     unidades := unidades Sample.ds;
     hospitais := hospitais Sample.ds;
     autores := autores Sample.ds;
     historicos := [] |}.

(** 2019-03-07T12:00:00Z, after the summer: the clocks are three hours
    behind UTC again. *)
Definition world : World :=
  {| db := ds; faults := []; console := []; clock := 1551960000000;
     timers := []; nextHandle := 1; awaiting := None |}.

Definition worldRolledNov : World :=
  snd (runSessionExpiryForDate zone "2018-11-04" world).

Definition worldRolledFeb : World :=
  snd (runSessionExpiryForDate zone "2019-02-16" world).

End Summer2018.

(** ** Properties *)

(** *** The job monad *)

Lemma bind_unfold {A B : Type} (m : Job A) (k : A -> Job B) w :
  bind m k w =
  match m w with
  | (Returned a, w') => k a w'
  | (Thrown e, w') => (Thrown e, w')
  end.
Proof. reflexivity. Qed.

Lemma bind_Returned {A B : Type} (m : Job A) (k : A -> Job B) w b w' :
  bind m k w = (Returned b, w') ->
  exists a w1, m w = (Returned a, w1) /\ k a w1 = (Returned b, w').
Proof.
  unfold bind. destruct (m w) as [[a|e] w1]; [eauto | discriminate].
Qed.

Lemma query_Returned {A : Type} (f : DataSource -> A * DataSource) w a w' :
  query f w = (Returned a, w') ->
  a = fst (f (db w)) /\
  w' = setDb (snd (f (db w))) (setFaults (tail (faults w)) w).
Proof.
  unfold query. destruct (head (faults w)) as [[e|]|], (f (db w)) as [a1 ds];
    intros [= <- <-] || discriminate; auto.
Qed.

Lemma query_fails {A : Type} (f : DataSource -> A * DataSource) w e :
  head (faults w) = Some (Some e) ->
  query f w = (Thrown e, setFaults (tail (faults w)) w).
Proof. unfold query. intros ->. reflexivity. Qed.

Lemma sameHost_refl w : sameHost w w.
Proof. repeat split. Qed.

Lemma sameHost_trans w1 w2 w3 : sameHost w1 w2 -> sameHost w2 w3 -> sameHost w1 w3.
Proof. unfold sameHost. intuition congruence. Qed.

Lemma keepsHost_query {A : Type} (f : DataSource -> A * DataSource) :
  keepsHost (query f).
Proof.
  intros w o w'. unfold query.
  destruct (head (faults w)) as [[e|]|], (f (db w)) as [a1 ds];
    intros [= <- <-]; repeat split.
Qed.

Lemma keepsHost_ret {A : Type} (a : A) : keepsHost (ret a).
Proof. intros w o w' [= <- <-]. apply sameHost_refl. Qed.

Lemma keepsHost_bind {A B : Type} (m : Job A) (k : A -> Job B) :
  keepsHost m -> (forall a, keepsHost (k a)) -> keepsHost (bind m k).
Proof.
  intros Hm Hk w o w'. unfold bind.
  destruct (m w) as [[a|e] w1] eqn:E; intros H.
  - eapply sameHost_trans; [eapply Hm, E | eapply Hk, H].
  - injection H as <- <-. eapply Hm, E.
Qed.

Lemma keepsHost_forOf {A : Type} (xs : list A) (body : A -> Job unit) :
  (forall x, keepsHost (body x)) -> keepsHost (forOf xs body).
Proof.
  intros Hb. induction xs as [|x xs IH]; simpl.
  - apply keepsHost_ret.
  - apply keepsHost_bind; auto.
Qed.

Lemma keepsHost_Date_now : keepsHost Date_now.
Proof. intros w o w' [= <- <-]. apply sameHost_refl. Qed.

Create HintDb job.

#[local] Hint Resolve keepsHost_query keepsHost_ret keepsHost_bind
  keepsHost_forOf keepsHost_Date_now : job.

(** *** The data source *)

Lemma appendHistoricos_nil ds : appendHistoricos [] ds = ds.
Proof. destruct ds. unfold appendHistoricos. simpl. by rewrite app_nil_r. Qed.

Lemma appendHistoricos_cons h hs ds :
  appendHistoricos (h :: hs) ds = appendHistoricos hs (save_historico h ds).
Proof. unfold appendHistoricos, save_historico. simpl. by rewrite <- app_assoc. Qed.

(** The loop of [save]s: when it ends without an error, every record is in
    the table, in the order of the list. *)
Lemma forOf_save_Returned hs w w' :
  forOf hs (fun h => let ent := histRepo.create h in histRepo.save ent) w
    = (Returned tt, w') ->
  db w' = appendHistoricos hs (db w).
Proof.
  revert w. induction hs as [|h hs IH]; intros w; simpl.
  - intros [= <-]. by rewrite appendHistoricos_nil.
  - intros H. apply bind_Returned in H as (a & w1 & H1 & H2).
    apply query_Returned in H1 as [_ ->].
    apply IH in H2. rewrite H2. simpl. by rewrite appendHistoricos_cons.
Qed.

(** *** The rollover *)

Section Rollover.

Variable zoneOffset : string -> Z -> Z.

#[local] Abbreviation manual_for := (manual_for zoneOffset).
#[local] Abbreviation runForDate_for := (runForDate_for zoneOffset).
#[local] Abbreviation snapshotsOf := (snapshotsOf zoneOffset).
#[local] Abbreviation tryBlock := (tryBlock zoneOffset).
#[local] Abbreviation rollover := (rollover zoneOffset).
#[local] Abbreviation rolled := (rolled zoneOffset).

(** The two copies of the loop compute the same collections. *)
Lemma runForDate_for_manual_for now d avals hs ids :
  runForDate_for now d avals hs ids = manual_for now d avals hs ids.
Proof.
  revert hs ids. induction avals as [|a rest IH]; intros hs ids; simpl.
  - reflexivity.
  - destruct (AvaliacaoSCP.leito a); apply IH.
Qed.

(** The two copies of the [try] block are the same job. *)
Lemma runForDate_try_manual d w :
  runForDate_try zoneOffset d w = runSessionExpiryForDate_try zoneOffset d w.
Proof.
  unfold runForDate_try, runSessionExpiryForDate_try, bind.
  destruct (avalRepo.find d w) as [[avals|e] w1]; [|reflexivity].
  destruct (Date_now w1) as [[now|e] w2]; [|reflexivity].
  by rewrite runForDate_for_manual_for.
Qed.

Lemma tryBlock_manual ep d w :
  tryBlock ep d w = runSessionExpiryForDate_try zoneOffset d w.
Proof. destruct ep; [reflexivity | apply runForDate_try_manual]. Qed.

Lemma manual_for_cons now d a rest hs ids :
  manual_for now d (a :: rest) hs ids =
  match AvaliacaoSCP.leito a with
  | None => manual_for now d rest hs ids
  | Some l =>
      manual_for now d rest (hs ++ [manual_h zoneOffset now d a l])
        (ids ∪ {[Leito.id l]})
  end.
Proof. reflexivity. Qed.

(** The assessments a rollover of the day [d] fetches are the rows of that
    day, with their relations loaded. *)
Lemma elem_of_assessmentsOn d w a :
  a ∈ assessmentsOn d w <->
  exists r, r ∈ avaliacoes (db w) /\ AvaliacaoRow.dataAplicacao r = d /\
            a = loadAvaliacao (db w) r.
Proof.
  unfold assessmentsOn, find_avaliacoes. rewrite list_elem_of_fmap. split.
  - intros (r & -> & Hr%list_elem_of_In%filter_In). destruct Hr as [Hr Hd].
    exists r. repeat split; [by apply list_elem_of_In|].
    by apply bool_decide_eq_true in Hd.
  - intros (r & Hr & Hd & ->). exists r. split; [reflexivity|].
    apply list_elem_of_In, filter_In. split; [by apply list_elem_of_In|].
    by apply bool_decide_eq_true.
Qed.

(** The loop appends, in order, the records of the assessments that have
    a bed. *)
Lemma manual_for_historicos now d avals hs ids :
  fst (manual_for now d avals hs ids) = hs ++ flat_map (snapshotsOf now d) avals.
Proof.
  revert hs ids. induction avals as [|a rest IH]; intros hs ids.
  - simpl. by rewrite app_nil_r.
  - cbn [flat_map]. unfold snapshotsOf at 1. rewrite manual_for_cons.
    destruct (AvaliacaoSCP.leito a) as [l|]; rewrite IH.
    + by rewrite <- app_assoc.
    + reflexivity.
Qed.

Lemma guarded_forOf (hs : list HistoricoOcupacao.t) (body : HistoricoOcupacao.t -> Job unit) w :
  (if negb (Nat.eqb (length hs) 0) then forOf hs body else ret tt) w
    = forOf hs body w.
Proof. destruct hs; reflexivity. Qed.

(** A [try] block that reaches its end leaves the data source [rolled]. *)
Lemma tryBlock_Returned ep d w w' :
  tryBlock ep d w = (Returned tt, w') ->
  db w' = rolled (clock w) d (db w).
Proof.
  rewrite tryBlock_manual. unfold runSessionExpiryForDate_try. intros H.
  apply bind_Returned in H as (avals & w1 & Hfind & H).
  apply query_Returned in Hfind as [-> ->]. simpl in H.
  apply bind_Returned in H as (now & w2 & Hnow & H).
  injection Hnow as <- <-.
  pose proof (manual_for_historicos (clock w) d (find_avaliacoes d (db w)) [] ∅) as Hfor.
  simpl in H.
  destruct (manual_for _ _ _ _ _) as [hs ids]. simpl in Hfor. subst hs.
  apply bind_Returned in H as ([] & w3 & Hsave & H).
  rewrite guarded_forOf in Hsave. apply forOf_save_Returned in Hsave.
  apply bind_Returned in H as ([] & w4 & Hleitos & H).
  apply query_Returned in Hleitos as [_ ->].
  apply query_Returned in H as [_ ->].
  simpl. rewrite Hsave. reflexivity.
Qed.

Lemma keepsHost_tryBlock ep d : keepsHost (tryBlock ep d).
Proof.
  intros w o w'. rewrite tryBlock_manual. revert w o w'.
  unfold runSessionExpiryForDate_try, avalRepo.find, histRepo.save,
    leitoRepo.updateStatus, avalRepo.updateStatusSessaoWhereData.
  apply keepsHost_bind; [solve [auto with job]|]. intros avals.
  apply keepsHost_bind; [solve [auto with job]|]. intros now.
  destruct (manual_for _ _ _ _ _) as [hs ids].
  apply keepsHost_bind; [|solve [auto with job]].
  destruct (negb _); solve [auto with job].
Qed.

Lemma runSessionExpiryForDate_Returned d w w' :
  runSessionExpiryForDate zoneOffset d w = (Returned tt, w') <->
  runSessionExpiryForDate_try zoneOffset d w = (Returned tt, w').
Proof.
  unfold runSessionExpiryForDate, tryCatch.
  destruct (runSessionExpiryForDate_try zoneOffset d w) as [[[]|e] w1];
    [reflexivity | split; discriminate].
Qed.

Lemma rollover_Returned ep d w w' :
  tryBlock ep d w = (Returned tt, w') -> rollover ep d w = (Returned tt, w').
Proof.
  destruct ep; simpl; unfold runSessionExpiryForDate, runForDate, tryCatch;
    by intros ->.
Qed.

Lemma length_snapshotsOf now d a : length (snapshotsOf now d a) = owed a.
Proof. unfold snapshotsOf, owed. by destruct (AvaliacaoSCP.leito a). Qed.

Lemma historicos_rolled now d ds :
  historicos (rolled now d ds) =
  historicos ds ++ flat_map (snapshotsOf now d) (find_avaliacoes d ds).
Proof. reflexivity. Qed.

Lemma leitos_rolled now d ds :
  leitos (rolled now d ds) = setStatusLeito PENDENTE <$> leitos ds.
Proof. reflexivity. Qed.

Lemma avaliacoes_rolled now d ds :
  avaliacoes (rolled now d ds) =
  (fun r => if onDate d r then AvaliacaoRow.setStatusSessao EXPIRADA r else r)
    <$> avaliacoes ds.
Proof. reflexivity. Qed.

(** The records the loop builds for a row of the assessment table, read
    off the tables: the bed the row refers to decides whether there is
    one, and the record carries that bed and the scores of the row. *)
Lemma snapshotsOf_row now d ds r :
  match
    AvaliacaoRow.leitoId r ≫=
      (fun k => List.find (fun l => bool_decide (Leito.id l = k)) (leitos ds))
  with
  | Some l =>
      exists h,
        snapshotsOf now d (loadAvaliacao ds r) = [h] /\
        HistoricoOcupacao.leito h = l /\
        HistoricoOcupacao.leitoNumero h = Leito.numero l /\
        HistoricoOcupacao.leitoStatus h = Leito.status l /\
        HistoricoOcupacao.scp h = AvaliacaoRow.scp r /\
        HistoricoOcupacao.totalPontos h = AvaliacaoRow.totalPontos r /\
        HistoricoOcupacao.classificacao h = AvaliacaoRow.classificacao r /\
        HistoricoOcupacao.itens h = AvaliacaoRow.itens r
  | None => snapshotsOf now d (loadAvaliacao ds r) = []
  end.
Proof.
  unfold snapshotsOf.
  change (AvaliacaoSCP.leito (loadAvaliacao ds r))
    with (AvaliacaoRow.leitoId r ≫=
            (fun k => List.find (fun l => bool_decide (Leito.id l = k)) (leitos ds))).
  destruct (AvaliacaoRow.leitoId r ≫= _) as [l|]; [|reflexivity].
  eexists. split; [reflexivity|]. by repeat split.
Qed.

(** The same for the row as a second rollover of the day finds it: the
    bed is the one the first rollover left, pending. *)
Lemma snapshotsOf_row_afterRollover now d ds r :
  match
    AvaliacaoRow.leitoId r ≫=
      (fun k => List.find (fun l => bool_decide (Leito.id l = k)) (leitos ds))
  with
  | Some l =>
      exists h,
        snapshotsOf now d (afterRollover (loadAvaliacao ds r)) = [h] /\
        HistoricoOcupacao.leito h = setStatusLeito PENDENTE l /\
        HistoricoOcupacao.leitoNumero h = Leito.numero l /\
        HistoricoOcupacao.leitoStatus h = Some PENDENTE /\
        HistoricoOcupacao.scp h = AvaliacaoRow.scp r /\
        HistoricoOcupacao.totalPontos h = AvaliacaoRow.totalPontos r /\
        HistoricoOcupacao.classificacao h = AvaliacaoRow.classificacao r /\
        HistoricoOcupacao.itens h = AvaliacaoRow.itens r
  | None => snapshotsOf now d (afterRollover (loadAvaliacao ds r)) = []
  end.
Proof.
  unfold snapshotsOf.
  change (AvaliacaoSCP.leito (afterRollover (loadAvaliacao ds r)))
    with (setStatusLeito PENDENTE <$>
            (AvaliacaoRow.leitoId r ≫=
               (fun k => List.find (fun l => bool_decide (Leito.id l = k)) (leitos ds)))).
  destruct (AvaliacaoRow.leitoId r ≫= _) as [l|]; [|reflexivity].
  eexists. split; [reflexivity|]. by repeat split.
Qed.

(** C1, as the code has it. A rollover of the day [d] that runs to its
    end adds to the history table, for every row of the assessment table
    whose date is [d], in the order of the table, exactly one record if the
    row refers to a bed, and none if its bed is null: the one record carries
    that bed as it was, its number and status, and the scores of the row.
    A row of the day without a bed is not left as it was: its session
    status is set to [EXPIRADA], and that is all that changes in it. *)
Theorem one_snapshot_per_assessment_with_bed ep d w w' :
  tryBlock ep d w = (Returned tt, w') ->
  let ofDay :=
    List.filter (fun r => bool_decide (AvaliacaoRow.dataAplicacao r = d))
      (avaliacoes (db w)) in
  let bed := fun r =>
    AvaliacaoRow.leitoId r ≫=
      (fun k => List.find (fun l => bool_decide (Leito.id l = k)) (leitos (db w))) in
  (exists created : list (list HistoricoOcupacao.t),
     historicos (db w') = historicos (db w) ++ concat created /\
     Forall2
       (fun r hs =>
          match bed r with
          | Some l =>
              exists h,
                hs = [h] /\
                HistoricoOcupacao.leito h = l /\
                HistoricoOcupacao.leitoNumero h = Leito.numero l /\
                HistoricoOcupacao.leitoStatus h = Leito.status l /\
                HistoricoOcupacao.scp h = AvaliacaoRow.scp r /\
                HistoricoOcupacao.totalPontos h = AvaliacaoRow.totalPontos r /\
                HistoricoOcupacao.classificacao h = AvaliacaoRow.classificacao r /\
                HistoricoOcupacao.itens h = AvaliacaoRow.itens r
          | None => hs = []
          end)
       ofDay created) /\
  Forall2
    (fun r r' =>
       AvaliacaoRow.dataAplicacao r = d -> bed r = None ->
       r' = AvaliacaoRow.setStatusSessao EXPIRADA r)
    (avaliacoes (db w)) (avaliacoes (db w')).
Proof.
  intros H ofDay bed. apply tryBlock_Returned in H. split.
  - exists (snapshotsOf (clock w) d ∘ loadAvaliacao (db w) <$> ofDay). split.
    + rewrite H, historicos_rolled, flat_map_concat_map.
      unfold find_avaliacoes. by rewrite <- list_fmap_compose.
    + apply Forall2_fmap_r, Forall_Forall2_diag, Forall_forall.
      intros r _. unfold compose, bed.
      apply snapshotsOf_row.
  - rewrite H, avaliacoes_rolled.
    apply Forall2_fmap_r, Forall_Forall2_diag, Forall_forall.
    intros r _ Hd _. unfold onDate. by rewrite (bool_decide_eq_true_2 _ Hd).
Qed.

(** C2. After a rollover that runs to its end every bed of the store has
    the status [PENDENTE], whatever its status was and whether or not an
    assessment of the day refers to it; the beds are the same beds. *)
Theorem every_bed_pending ep d w w' :
  tryBlock ep d w = (Returned tt, w') ->
  Forall2
    (fun l l' =>
       Leito.id l' = Leito.id l /\ Leito.numero l' = Leito.numero l /\
       Leito.status l' = Some PENDENTE)
    (leitos (db w)) (leitos (db w')).
Proof.
  intros H. apply tryBlock_Returned in H. rewrite H, leitos_rolled.
  apply Forall2_fmap_r, Forall_Forall2_diag, Forall_forall.
  intros l _. repeat split.
Qed.

(** C3. After a rollover of the day [d] that runs to its end, every
    assessment row of that day has the session status [EXPIRADA] and is
    otherwise as it was, and every row of another day is unchanged. *)
Theorem sessions_of_day_expired ep d w w' :
  tryBlock ep d w = (Returned tt, w') ->
  Forall2
    (fun r r' =>
       (AvaliacaoRow.dataAplicacao r = d ->
          r' = AvaliacaoRow.setStatusSessao EXPIRADA r /\
          AvaliacaoRow.statusSessao r' = EXPIRADA) /\
       (AvaliacaoRow.dataAplicacao r <> d -> r' = r))
    (avaliacoes (db w)) (avaliacoes (db w')).
Proof.
  intros H. apply tryBlock_Returned in H. rewrite H, avaliacoes_rolled.
  apply Forall2_fmap_r, Forall_Forall2_diag, Forall_forall.
  intros r _. unfold compose, onDate. cbv beta.
  destruct (decide (AvaliacaoRow.dataAplicacao r = d)) as [E|E].
  - rewrite (bool_decide_eq_true_2 _ E). split; [by split | done].
  - rewrite (bool_decide_eq_false_2 _ E). by split.
Qed.

(** *** The time window *)

Lemma window_snapshotsOf now d a h :
  h ∈ snapshotsOf now d a -> window h = dayWindow zoneOffset now d.
Proof.
  unfold snapshotsOf. destruct (AvaliacaoSCP.leito a) as [l|].
  - intros ->%list_elem_of_singleton.
    unfold window, dayWindow, startOfLocalDay, manual_h. simpl.
    by destruct (Luxon.fromISO (zoneOffset ZONE) now d).
  - intros []%elem_of_nil.
Qed.

(** In a zone that keeps one offset, a wall-clock time has one instant,
    whatever the guess it is resolved from. *)
Lemma fixOffset_constant (offset : Z -> Z) c l o :
  (forall t, offset t = c) ->
  Luxon.fixOffset offset l o = Luxon.mkDT (l - c * Luxon.MS_PER_MINUTE) c.
Proof.
  intros Hc. unfold Luxon.fixOffset. rewrite !Hc.
  destruct (Z.eqb_spec o c) as [->|_]; [reflexivity|].
  rewrite Z.eqb_refl. f_equal. lia.
Qed.

Lemma plusDays_constant (offset : Z -> Z) c n t :
  (forall t, offset t = c) ->
  Luxon.plusDays offset n (Luxon.mkDT t c)
    = Luxon.mkDT (t + n * Luxon.MS_PER_DAY) c.
Proof.
  intros Hc. unfold Luxon.plusDays, Luxon.localTS. simpl.
  rewrite (fixOffset_constant _ c) by assumption. f_equal. lia.
Qed.

Lemma startOfDay_constant (offset : Z -> Z) c k :
  (forall t, offset t = c) ->
  Luxon.startOfDay offset
    (Luxon.mkDT (k * Luxon.MS_PER_DAY - c * Luxon.MS_PER_MINUTE) c)
    = Luxon.mkDT (k * Luxon.MS_PER_DAY - c * Luxon.MS_PER_MINUTE) c.
Proof.
  intros Hc. unfold Luxon.startOfDay, Luxon.localTS. simpl.
  rewrite (fixOffset_constant _ c) by assumption. f_equal.
  replace (k * Luxon.MS_PER_DAY - c * Luxon.MS_PER_MINUTE + c * Luxon.MS_PER_MINUTE)
    with (k * Luxon.MS_PER_DAY) by lia.
  rewrite Z_mod_mult. lia.
Qed.

Lemma dayWindow_constant_offset now d c y m dd :
  (forall t, zoneOffset ZONE t = c) ->
  Luxon.parseISODate d = Some (y, m, dd) ->
  let midnight :=
    Luxon.daysFromCivil y m dd * Luxon.MS_PER_DAY - c * Luxon.MS_PER_MINUTE in
  dayWindow zoneOffset now d = (Some midnight, Some (midnight + 86399999)).
Proof.
  intros Hc Hd. unfold dayWindow, startOfLocalDay, startOfNextLocalDay, Luxon.fromISO.
  rewrite Hd. simpl.
  rewrite (fixOffset_constant _ c) by assumption.
  rewrite (startOfDay_constant _ c) by assumption.
  rewrite (plusDays_constant _ c) by assumption.
  replace (Luxon.daysFromCivil y m dd * Luxon.MS_PER_DAY
           - c * Luxon.MS_PER_MINUTE + 1 * Luxon.MS_PER_DAY)
    with ((Luxon.daysFromCivil y m dd + 1) * Luxon.MS_PER_DAY
          - c * Luxon.MS_PER_MINUTE) by lia.
  rewrite (startOfDay_constant _ c) by assumption. simpl.
  unfold Luxon.MS_PER_DAY. do 2 f_equal. lia.
Qed.

(** Where the zone is settled, a wall-clock time has one instant, whatever
    the guess it is resolved from, as long as the guess leads to an instant
    where the zone is settled too. *)
Lemma fixOffset_settled (offset : Z -> Z) c g t0 l o :
  settledAround offset c g t0 ->
  l - c * Luxon.MS_PER_MINUTE = t0 ->
  Z.abs (o - c) <= g ->
  Luxon.fixOffset offset l o = Luxon.mkDT t0 c.
Proof.
  intros Hs Hl Ho. unfold Luxon.fixOffset.
  assert (Hg : offset (l - o * Luxon.MS_PER_MINUTE) = c).
  { apply Hs. unfold Luxon.MS_PER_MINUTE in *. lia. }
  cbv zeta. rewrite Hg.
  destruct (Z.eqb_spec o c) as [->|_]; [by rewrite Hl|].
  replace (l - o * Luxon.MS_PER_MINUTE - (c - o) * Luxon.MS_PER_MINUTE)
    with t0 by lia.
  assert (H0 : offset t0 = c).
  { apply Hs. unfold Luxon.MS_PER_MINUTE in *. lia. }
  by rewrite H0, Z.eqb_refl.
Qed.

Lemma startOfDay_settled (offset : Z -> Z) c g k :
  settledAround offset c g (localMidnight c k) ->
  0 <= g ->
  Luxon.startOfDay offset (Luxon.mkDT (localMidnight c k) c)
    = Luxon.mkDT (localMidnight c k) c.
Proof.
  intros Hs Hg. unfold Luxon.startOfDay, Luxon.localTS. simpl.
  replace (localMidnight c k + c * Luxon.MS_PER_MINUTE)
    with (k * Luxon.MS_PER_DAY) by (unfold localMidnight; lia).
  rewrite Z_mod_mult, Z.sub_0_r.
  apply (fixOffset_settled offset c g); [done|reflexivity|lia].
Qed.

(** The window of a day both of whose local midnights the zone has: it
    runs from the one to a millisecond before the other, whatever the clock
    luxon starts from. *)
Lemma dayWindow_settled now d y m dd c c' g :
  Luxon.parseISODate d = Some (y, m, dd) ->
  settledAround (zoneOffset ZONE) c g
    (localMidnight c (Luxon.daysFromCivil y m dd)) ->
  settledAround (zoneOffset ZONE) c' g
    (localMidnight c' (Luxon.daysFromCivil y m dd + 1)) ->
  Z.abs (zoneOffset ZONE now - c) <= g ->
  Z.abs (c' - c) <= g ->
  dayWindow zoneOffset now d
    = (Some (localMidnight c (Luxon.daysFromCivil y m dd)),
       Some (localMidnight c' (Luxon.daysFromCivil y m dd + 1) - 1)).
Proof.
  intros Hd Hs Hs' Hnow Hcc.
  assert (Hg : 0 <= g) by lia.
  unfold dayWindow, startOfLocalDay, startOfNextLocalDay, Luxon.fromISO.
  rewrite Hd. cbn [fmap option_fmap option_map].
  rewrite (fixOffset_settled _ c g (localMidnight c (Luxon.daysFromCivil y m dd)))
    by (done || reflexivity).
  rewrite (startOfDay_settled _ c g) by done.
  assert (Hplus :
    Luxon.plusDays (zoneOffset ZONE) 1
      (Luxon.mkDT (localMidnight c (Luxon.daysFromCivil y m dd)) c)
    = Luxon.mkDT (localMidnight c' (Luxon.daysFromCivil y m dd + 1)) c').
  { unfold Luxon.plusDays, Luxon.localTS. simpl.
    apply (fixOffset_settled _ c' g); [done| |lia].
    unfold localMidnight. lia. }
  rewrite Hplus, (startOfDay_settled _ c' g) by done.
  reflexivity.
Qed.

(** Whatever the zone and the date string, the records of one run carry
    one and the same window. *)
Lemma windows_of_a_run_agree now d avals h1 h2 :
  h1 ∈ flat_map (snapshotsOf now d) avals ->
  h2 ∈ flat_map (snapshotsOf now d) avals ->
  window h1 = window h2.
Proof.
  intros [a1 [_ H1]]%list_elem_of_In%in_flat_map
         [a2 [_ H2]]%list_elem_of_In%in_flat_map.
  apply list_elem_of_In, window_snapshotsOf in H1, H2. congruence.
Qed.

(** C4, as the code has it. Let [d] be a calendar date [yyyy-mm-dd] both
    of whose local midnights the zone has: around the instant at which the
    clocks, [c] minutes from UTC, read 00:00 of [d], and around the instant
    at which, [c'] minutes from UTC, they read 00:00 of the following
    day, the zone keeps that offset for [g] minutes either side, [g]
    bounding the difference of [c] to [c'] and to the offset in force when
    the rollover runs (an hour, for America/Sao_Paulo).  Then every record a
    rollover of [d] creates carries the same window, which depends on [d]
    and the zone and on nothing else, neither on the assessment nor on the
    clock: from local midnight of [d] to one millisecond before local
    midnight of the following day, the whole local day. *)
Theorem window_is_the_local_day ep d w w' y m dd c c' g :
  tryBlock ep d w = (Returned tt, w') ->
  Luxon.parseISODate d = Some (y, m, dd) ->
  settledAround (zoneOffset ZONE) c g
    (localMidnight c (Luxon.daysFromCivil y m dd)) ->
  settledAround (zoneOffset ZONE) c' g
    (localMidnight c' (Luxon.daysFromCivil y m dd + 1)) ->
  Z.abs (zoneOffset ZONE (clock w) - c) <= g ->
  Z.abs (c' - c) <= g ->
  exists created : list HistoricoOcupacao.t,
    historicos (db w') = historicos (db w) ++ created /\
    Forall
      (fun h =>
         window h
           = (Some (localMidnight c (Luxon.daysFromCivil y m dd)),
              Some (localMidnight c' (Luxon.daysFromCivil y m dd + 1) - 1)))
      created.
Proof.
  intros H Hd Hs Hs' Hnow Hcc. apply tryBlock_Returned in H.
  exists (flat_map (snapshotsOf (clock w) d) (assessmentsOn d w)).
  split; [by rewrite H, historicos_rolled|].
  apply Forall_forall. intros h [a [_ Hh]]%list_elem_of_In%in_flat_map.
  apply list_elem_of_In, window_snapshotsOf in Hh. rewrite Hh.
  by apply (dayWindow_settled _ d y m dd c c' g).
Qed.

(** *** Errors *)

(** The call the timer callback awaits never throws. *)
Lemma onTimeout_await_Returned dateStr w :
  fst (onTimeout_await zoneOffset dateStr w) = Returned tt.
Proof.
  unfold onTimeout_await. destruct (negb _); [|reflexivity].
  unfold runForDate, tryCatch.
  by destruct (runForDate_try zoneOffset dateStr w) as [[[]|e] w1].
Qed.

Lemma firstFault_add n m fs :
  firstFault (n + m) fs =
  match firstFault n fs with
  | Some e => Some e
  | None => firstFault m (drop n fs)
  end.
Proof.
  revert fs. induction n as [|n IH]; intros fs; [reflexivity|].
  destruct fs as [|[e|] fs]; simpl.
  - by destruct m.
  - reflexivity.
  - apply IH.
Qed.

Lemma makesCalls_ret {A : Type} (a : A) : makesCalls 0 (ret a).
Proof. intros w. simpl. by exists a, w. Qed.

Lemma makesCalls_Date_now : makesCalls 0 Date_now.
Proof. intros w. simpl. by exists (clock w), w. Qed.

Lemma makesCalls_query {A : Type} (f : DataSource -> A * DataSource) :
  makesCalls 1 (query f).
Proof.
  intros w. unfold query.
  destruct (faults w) as [|[e|] fs]; simpl; destruct (f (db w)); eauto.
Qed.

Lemma makesCalls_bind {A B : Type} n k (m : Job A) (f : A -> Job B) :
  makesCalls n m -> (forall a, makesCalls k (f a)) ->
  makesCalls (n + k) (bind m f).
Proof.
  intros Hm Hf w. rewrite firstFault_add. specialize (Hm w). unfold bind.
  destruct (firstFault n (faults w)) as [e|].
  - destruct Hm as [w' ->]. eauto.
  - destruct Hm as (a & w' & -> & Hw'). specialize (Hf a w'). rewrite Hw' in Hf.
    destruct (firstFault k (drop n (faults w))) as [e|]; [exact Hf|].
    destruct Hf as (b & w'' & -> & Hw''). exists b, w''.
    split; [reflexivity|]. by rewrite Hw'', drop_drop.
Qed.

Lemma makesCalls_forOf {A : Type} (xs : list A) (body : A -> Job unit) :
  (forall x, makesCalls 1 (body x)) -> makesCalls (length xs) (forOf xs body).
Proof.
  intros Hb. induction xs as [|x xs IH].
  - apply makesCalls_ret.
  - apply (makesCalls_bind 1 (length xs)); auto.
Qed.

Lemma length_flat_map_snapshotsOf now d avals :
  length (flat_map (snapshotsOf now d) avals) = sum_list (owed <$> avals).
Proof.
  induction avals as [|a avals IH]; [reflexivity|].
  cbn [flat_map]. rewrite length_app, length_snapshotsOf, IH. reflexivity.
Qed.

(** The [try] block throws the first error the script holds for the calls
    of the rollover, and reaches its end if it holds none. *)
Lemma tryBlock_outcome ep d w :
  match firstFault (callsOf d w) (faults w) with
  | Some e => exists w', tryBlock ep d w = (Thrown e, w')
  | None => exists w', tryBlock ep d w = (Returned tt, w')
  end.
Proof.
  assert (Hrest : forall avals,
    makesCalls (0 + (sum_list (owed <$> avals) + (1 + 1)))
      (now <- Date_now ;;
       let '(historicos, leitoIdsToReset) := manual_for now d avals [] ∅ in
       (if negb (Nat.eqb (length historicos) 0)
        then forOf historicos (fun h =>
               let ent := histRepo.create h in histRepo.save ent)
        else ret tt) ;;;
       leitoRepo.updateStatus PENDENTE ;;;
       avalRepo.updateStatusSessaoWhereData EXPIRADA d)%job).
  { intros avals. apply makesCalls_bind; [apply makesCalls_Date_now|].
    intros now.
    pose proof (manual_for_historicos now d avals [] ∅) as Hfor.
    destruct (manual_for _ _ _ _ _) as [hs ids]. simpl in Hfor. subst hs.
    rewrite <- (length_flat_map_snapshotsOf now d).
    apply makesCalls_bind.
    - intros w1. rewrite guarded_forOf. revert w1.
      apply makesCalls_forOf. intros h. apply makesCalls_query.
    - intros _. apply makesCalls_bind; [apply makesCalls_query|].
      intros _. apply makesCalls_query. }
  rewrite tryBlock_manual. unfold callsOf, assessmentsOn.
  unfold runSessionExpiryForDate_try. rewrite bind_unfold.
  unfold avalRepo.find, query.
  destruct (faults w) as [|[e|] fs] eqn:Hfs; simpl; [| eauto |].
  - specialize (Hrest (find_avaliacoes d (db w)) (setDb (db w) (setFaults [] w))).
    simpl in Hrest.
    destruct (sum_list _ + 2)%nat; simpl in Hrest;
      destruct Hrest as ([] & w' & Hrest & _); eauto.
  - specialize (Hrest (find_avaliacoes d (db w)) (setDb (db w) (setFaults fs w))).
    simpl in Hrest.
    destruct (firstFault _ fs) as [e|]; [exact Hrest|].
    destruct Hrest as ([] & w' & Hrest & _). eauto.
Qed.

(** C5. When a call to the data source fails during a rollover ([e] is the
    first error among the calls the rollover makes), both entry points
    write one warning with that error; the manual one then throws [e] to
    its caller, the scheduler's returns normally, and the call the timer
    callback awaits never throws, whatever happens. *)
Theorem errors_logged_then_rethrown_or_swallowed ep d w e :
  firstFault (callsOf d w) (faults w) = Some e ->
  fst (rollover ep d w) =
    match ep with Manual => Thrown e | Scheduler => Returned tt end /\
  console (snd (rollover ep d w)) = console w ++ [(warning ep, e)] /\
  forall dateStr w0, fst (onTimeout_await zoneOffset dateStr w0) = Returned tt.
Proof.
  intros H. pose proof (tryBlock_outcome ep d w) as Hout. rewrite H in Hout.
  destruct Hout as [w1 Hout].
  pose proof (keepsHost_tryBlock ep d _ _ _ Hout) as (_ & _ & _ & _ & Hc).
  split; [|split].
  - destruct ep; simpl in *;
      unfold runSessionExpiryForDate, runForDate, tryCatch; by rewrite Hout.
  - destruct ep; simpl in *;
      unfold runSessionExpiryForDate, runForDate, tryCatch; rewrite Hout; simpl;
      by rewrite Hc.
  - apply onTimeout_await_Returned.
Qed.



Lemma tryBlock_fetch_fails ep d w e :
  head (faults w) = Some (Some e) ->
  tryBlock ep d w = (Thrown e, setFaults (tail (faults w)) w).
Proof.
  intros H. rewrite tryBlock_manual.
  unfold runSessionExpiryForDate_try, bind, avalRepo.find.
  by rewrite (query_fails _ _ e H).
Qed.

(** C6. If the first call to the data source, the fetch of the
    assessments, fails, the rollover ends without any write: the data
    source is exactly as it was.  The manual entry point throws the
    error, the scheduler's returns. *)
Theorem failed_fetch_writes_nothing ep d w e :
  head (faults w) = Some (Some e) ->
  db (snd (rollover ep d w)) = db w /\
  fst (rollover ep d w) =
    match ep with Manual => Thrown e | Scheduler => Returned tt end.
Proof.
  intros H. apply (tryBlock_fetch_fails ep d) in H.
  destruct ep; simpl in *;
    unfold runSessionExpiryForDate, runForDate, tryCatch; rewrite H;
    by split.
Qed.

(** *** Running twice *)

Lemma byId_fmap {A : Type} (key : A -> string) (g : A -> A) rows k :
  (forall r, key (g r) = key r) ->
  byId key (g <$> rows) k = g <$> byId key rows k.
Proof.
  intros Hg. unfold byId. induction rows as [|r rows IH]; [reflexivity|].
  simpl. rewrite Hg. by destruct (bool_decide (key r = k)).
Qed.

Lemma filter_onDate_fmap d (g : AvaliacaoRow.t -> AvaliacaoRow.t) rows :
  (forall r, AvaliacaoRow.dataAplicacao (g r) = AvaliacaoRow.dataAplicacao r) ->
  List.filter (onDate d) (g <$> rows) = g <$> List.filter (onDate d) rows.
Proof.
  intros Hg. induction rows as [|r rows IH]; [reflexivity|].
  rewrite fmap_cons. cbn [List.filter].
  replace (onDate d (g r)) with (onDate d r) by (unfold onDate; by rewrite Hg).
  destruct (onDate d r); [rewrite fmap_cons|]; by rewrite IH.
Qed.

(** After a rollover of the day [d], the assessments of [d] are fetched
    again, one for one. *)
Lemma find_avaliacoes_rolled now d ds :
  find_avaliacoes d (rolled now d ds) = afterRollover <$> find_avaliacoes d ds.
Proof.
  unfold find_avaliacoes. rewrite avaliacoes_rolled.
  rewrite filter_onDate_fmap by (intros r; by destruct (onDate d r)).
  rewrite <- !list_fmap_compose. apply Forall_fmap_ext_1, Forall_forall.
  intros r Hr%list_elem_of_In%filter_In. destruct Hr as [_ Hr].
  simpl. rewrite Hr. unfold loadAvaliacao, afterRollover. simpl.
  destruct (AvaliacaoRow.leitoId r) as [k|]; simpl;
    [rewrite byId_fmap by done|]; reflexivity.
Qed.

Lemma owed_afterRollover a : owed (afterRollover a) = owed a.
Proof. unfold owed. simpl. by destruct (AvaliacaoSCP.leito a). Qed.

(** C7. Two rollovers of the same day [d] in a row, both run to their
    end, leave two history records for every row of the assessment table
    whose date is [d] and which refers to a bed, and none for a row
    without a bed.  The first run appends its records to the table; the
    second run keeps them all and appends its own after them: for the same
    rows, in the same order, a record with the same scores and the same
    bed, which the first run left pending. *)
Theorem second_run_duplicates_snapshots ep1 ep2 d w w1 w2 :
  tryBlock ep1 d w = (Returned tt, w1) ->
  tryBlock ep2 d w1 = (Returned tt, w2) ->
  let ofDay :=
    List.filter (fun r => bool_decide (AvaliacaoRow.dataAplicacao r = d))
      (avaliacoes (db w)) in
  let bed := fun r =>
    AvaliacaoRow.leitoId r ≫=
      (fun k => List.find (fun l => bool_decide (Leito.id l = k)) (leitos (db w))) in
  exists first second : list (list HistoricoOcupacao.t),
    historicos (db w1) = historicos (db w) ++ concat first /\
    historicos (db w2) = historicos (db w1) ++ concat second /\
    Forall2
      (fun r hs =>
         match bed r with
         | Some l =>
             exists h,
               hs = [h] /\
               HistoricoOcupacao.leito h = l /\
               HistoricoOcupacao.leitoNumero h = Leito.numero l /\
               HistoricoOcupacao.leitoStatus h = Leito.status l /\
               HistoricoOcupacao.scp h = AvaliacaoRow.scp r /\
               HistoricoOcupacao.totalPontos h = AvaliacaoRow.totalPontos r /\
               HistoricoOcupacao.classificacao h = AvaliacaoRow.classificacao r /\
               HistoricoOcupacao.itens h = AvaliacaoRow.itens r
         | None => hs = []
         end)
      ofDay first /\
    Forall2
      (fun r hs =>
         match bed r with
         | Some l =>
             exists h,
               hs = [h] /\
               HistoricoOcupacao.leito h = setStatusLeito PENDENTE l /\
               HistoricoOcupacao.leitoNumero h = Leito.numero l /\
               HistoricoOcupacao.leitoStatus h = Some PENDENTE /\
               HistoricoOcupacao.scp h = AvaliacaoRow.scp r /\
               HistoricoOcupacao.totalPontos h = AvaliacaoRow.totalPontos r /\
               HistoricoOcupacao.classificacao h = AvaliacaoRow.classificacao r /\
               HistoricoOcupacao.itens h = AvaliacaoRow.itens r
         | None => hs = []
         end)
      ofDay second.
Proof.
  intros H1 H2 ofDay bed. apply tryBlock_Returned in H1, H2.
  exists (snapshotsOf (clock w) d ∘ loadAvaliacao (db w) <$> ofDay).
  exists (snapshotsOf (clock w1) d ∘ afterRollover ∘ loadAvaliacao (db w) <$> ofDay).
  split; [|split; [|split]].
  - rewrite H1, historicos_rolled, flat_map_concat_map.
    unfold find_avaliacoes. by rewrite <- list_fmap_compose.
  - rewrite H2, historicos_rolled, H1, find_avaliacoes_rolled.
    rewrite flat_map_concat_map.
    unfold find_avaliacoes. by rewrite <- !list_fmap_compose.
  - apply Forall2_fmap_r, Forall_Forall2_diag, Forall_forall.
    intros r _. unfold compose, bed. apply snapshotsOf_row.
  - apply Forall2_fmap_r, Forall_Forall2_diag, Forall_forall.
    intros r _. unfold compose, bed. apply snapshotsOf_row_afterRollover.
Qed.

(** *** The two entry points *)

(** C8. The two entry points are the same rollover: their [try] blocks
    are the same job (the same fetch, the same records saved, the same two
    bulk updates, the same outcome), so both leave the same data source
    and use up the same calls; they differ in what they do with an
    error, which the manual one throws and the scheduler's swallows, each
    after its own warning. *)
Theorem entry_points_agree_on_the_data_source d w :
  runForDate_try zoneOffset d w = runSessionExpiryForDate_try zoneOffset d w /\
  db (snd (runForDate zoneOffset d w))
    = db (snd (runSessionExpiryForDate zoneOffset d w)) /\
  faults (snd (runForDate zoneOffset d w))
    = faults (snd (runSessionExpiryForDate zoneOffset d w)) /\
  match runSessionExpiryForDate_try zoneOffset d w with
  | (Returned _, w') =>
      runSessionExpiryForDate zoneOffset d w = (Returned tt, w') /\
      runForDate zoneOffset d w = (Returned tt, w')
  | (Thrown e, w') =>
      runSessionExpiryForDate zoneOffset d w
        = (Thrown e, setConsole (console w' ++ [("Job manual run failed:", e)]) w') /\
      runForDate zoneOffset d w
        = (Returned tt, setConsole (console w' ++ [("Job daily-reset falhou:", e)]) w')
  end.
Proof.
  pose proof (runForDate_try_manual d w) as E.
  split; [exact E|].
  unfold runForDate, runSessionExpiryForDate, tryCatch. rewrite E.
  destruct (runSessionExpiryForDate_try zoneOffset d w) as [[[]|e] w'];
    repeat split.
Qed.

(** *** Missing relations *)

Lemma firstFault_no_faults n fs :
  Forall (eq None) fs -> firstFault n fs = None.
Proof.
  revert fs. induction n as [|n IH]; intros fs H; [reflexivity|].
  destruct H as [|o fs <- H]; [reflexivity|]. simpl. by apply IH.
Qed.

(** Without a failing call, the rollover runs to its end. *)
Lemma tryBlock_no_faults ep d w :
  Forall (eq None) (faults w) ->
  exists w', tryBlock ep d w = (Returned tt, w').
Proof.
  intros H. pose proof (tryBlock_outcome ep d w) as Hout.
  by rewrite (firstFault_no_faults _ _ H) in Hout.
Qed.

(** C10. With a data source that does not fail, the rollover runs to its
    end and an assessment that has a bed gets its record even if its
    unit, the hospital of its unit or its author is missing: the fields
    read from a missing relation are null, and the scoring fields are
    copied as they are, null for null. *)
Theorem missing_relations_are_recorded_as_null ep d w a l :
  Forall (eq None) (faults w) ->
  a ∈ assessmentsOn d w ->
  AvaliacaoSCP.leito a = Some l ->
  exists w' created h,
    tryBlock ep d w = (Returned tt, w') /\
    historicos (db w') = historicos (db w) ++ created /\
    h ∈ created /\
    HistoricoOcupacao.leito h = l /\
    (AvaliacaoSCP.unidade a = None ->
       HistoricoOcupacao.unidadeId h = None /\
       HistoricoOcupacao.hospitalId h = None) /\
    (forall u, AvaliacaoSCP.unidade a = Some u -> Unidade.hospital u = None ->
       HistoricoOcupacao.unidadeId h = Some (Unidade.id u) /\
       HistoricoOcupacao.hospitalId h = None) /\
    (AvaliacaoSCP.autor a = None ->
       HistoricoOcupacao.autorId h = None /\
       HistoricoOcupacao.autorNome h = None) /\
    HistoricoOcupacao.scp h = AvaliacaoSCP.scp a /\
    HistoricoOcupacao.totalPontos h = AvaliacaoSCP.totalPontos a /\
    HistoricoOcupacao.classificacao h = AvaliacaoSCP.classificacao a /\
    HistoricoOcupacao.itens h = AvaliacaoSCP.itens a.
Proof.
  intros Hf Ha Hl. destruct (tryBlock_no_faults ep d w Hf) as [w' Hrun].
  exists w', (flat_map (snapshotsOf (clock w) d) (assessmentsOn d w)),
    (manual_h zoneOffset (clock w) d a l).
  split; [exact Hrun|]. apply tryBlock_Returned in Hrun.
  split; [by rewrite Hrun, historicos_rolled|]. split.
  - apply list_elem_of_In, in_flat_map. exists a.
    split; [by apply list_elem_of_In|].
    unfold snapshotsOf. rewrite Hl. by left.
  - simpl. split; [reflexivity|].
    split; [by intros ->|].
    split; [by intros u -> ->|].
    split; [by intros ->|]. done.
Qed.

End Rollover.

(** *** The properties on the small hospital *)

(** C1, as the claim states it, fails: the second assessment of
    2024-03-10 has no bed and was released; the rollover of that day
    creates no record for it, but does not leave it as it was: its row
    comes out expired. *)
Lemma assessment_without_bed_is_expired :
  runSessionExpiryForDate Sample.zone "2024-03-10" Sample.world
    = (Returned tt, Sample.worldRolled) /\
  avaliacoes (db Sample.world) !! 1%nat = Some Sample.aval2 /\
  AvaliacaoRow.dataAplicacao Sample.aval2 = "2024-03-10" /\
  AvaliacaoRow.leitoId Sample.aval2 = None /\
  AvaliacaoRow.statusSessao Sample.aval2 = LIBERADA /\
  length (historicos (db Sample.worldRolled)) = 2%nat /\
  exists r',
    avaliacoes (db Sample.worldRolled) !! 1%nat = Some r' /\
    AvaliacaoRow.id r' = "A2" /\
    AvaliacaoRow.statusSessao r' = EXPIRADA /\
    r' <> Sample.aval2.
Proof.
  split; [vm_compute; reflexivity|].
  do 5 (split; [vm_compute; reflexivity|]).
  eexists. split; [vm_compute; reflexivity|].
  split; [reflexivity|]. split; [reflexivity|]. discriminate.
Qed.

Lemma one_snapshot_per_assessment_with_bed_witness :
  tryBlock Sample.zone Manual "2024-03-10" Sample.world
    = (Returned tt, Sample.worldRolled) /\
  let ofDay :=
    List.filter (fun r => bool_decide (AvaliacaoRow.dataAplicacao r = "2024-03-10"))
      (avaliacoes (db Sample.world)) in
  let bed := fun r =>
    AvaliacaoRow.leitoId r ≫=
      (fun k => List.find (fun l => bool_decide (Leito.id l = k))
                  (leitos (db Sample.world))) in
  (exists created : list (list HistoricoOcupacao.t),
     historicos (db Sample.worldRolled)
       = historicos (db Sample.world) ++ concat created /\
     Forall2
       (fun r hs =>
          match bed r with
          | Some l =>
              exists h,
                hs = [h] /\
                HistoricoOcupacao.leito h = l /\
                HistoricoOcupacao.leitoNumero h = Leito.numero l /\
                HistoricoOcupacao.leitoStatus h = Leito.status l /\
                HistoricoOcupacao.scp h = AvaliacaoRow.scp r /\
                HistoricoOcupacao.totalPontos h = AvaliacaoRow.totalPontos r /\
                HistoricoOcupacao.classificacao h = AvaliacaoRow.classificacao r /\
                HistoricoOcupacao.itens h = AvaliacaoRow.itens r
          | None => hs = []
          end)
       ofDay created) /\
  Forall2
    (fun r r' =>
       AvaliacaoRow.dataAplicacao r = "2024-03-10" -> bed r = None ->
       r' = AvaliacaoRow.setStatusSessao EXPIRADA r)
    (avaliacoes (db Sample.world)) (avaliacoes (db Sample.worldRolled)).
Proof.
  split; [vm_compute; reflexivity|].
  apply (one_snapshot_per_assessment_with_bed Sample.zone Manual "2024-03-10"
           Sample.world Sample.worldRolled).
  vm_compute. reflexivity.
Defined.

(** The rows of 2024-03-10, the bed each refers to, and the history the
    rollover leaves: a record for the first and the fourth assessment, with
    the beds as they were, none for the second. *)
Example rows_and_records_of_the_day :
  (fun r => (AvaliacaoRow.id r, AvaliacaoRow.leitoId r))
    <$> List.filter (fun r => bool_decide (AvaliacaoRow.dataAplicacao r = "2024-03-10"))
          (avaliacoes (db Sample.world))
  = [("A1", Some "L1"); ("A2", None); ("A4", Some "L3")] /\
  (fun h => (HistoricoOcupacao.leito h, HistoricoOcupacao.totalPontos h))
    <$> historicos (db Sample.worldRolled)
  = [(Sample.leito1, Some 27); (Sample.leito3, None)].
Proof. vm_compute. by split. Qed.

Lemma every_bed_pending_witness :
  tryBlock Sample.zone Scheduler "2024-03-10" Sample.world
    = (Returned tt, Sample.worldRolled) /\
  Forall2
    (fun l l' =>
       Leito.id l' = Leito.id l /\ Leito.numero l' = Leito.numero l /\
       Leito.status l' = Some PENDENTE)
    (leitos (db Sample.world)) (leitos (db Sample.worldRolled)).
Proof.
  split; [vm_compute; reflexivity|].
  apply (every_bed_pending Sample.zone Scheduler "2024-03-10").
  vm_compute. reflexivity.
Defined.

Lemma sessions_of_day_expired_witness :
  tryBlock Sample.zone Manual "2024-03-10" Sample.world
    = (Returned tt, Sample.worldRolled) /\
  Forall2
    (fun r r' =>
       (AvaliacaoRow.dataAplicacao r = "2024-03-10" ->
          r' = AvaliacaoRow.setStatusSessao EXPIRADA r /\
          AvaliacaoRow.statusSessao r' = EXPIRADA) /\
       (AvaliacaoRow.dataAplicacao r <> "2024-03-10" -> r' = r))
    (avaliacoes (db Sample.world)) (avaliacoes (db Sample.worldRolled)).
Proof.
  split; [vm_compute; reflexivity|].
  apply (sessions_of_day_expired Sample.zone Manual "2024-03-10").
  vm_compute. reflexivity.
Defined.

(** C4, as the claim states it, fails, in two ways.  The record the manual
    rollover of 2024-03-10 creates for the first assessment ends at
    2024-03-11T02:59:59.999Z, one millisecond before local midnight of the
    following day (03:00:00.000Z), so its window is not the
    midnight-to-midnight one.  And under the clocks of the summer of 2018
    the record of the rollover of 2018-11-04 starts at 03:00:00.000Z, when
    the clocks read 01:00 of that day: no instant reads 00:00 of it, so the
    window does not start at local midnight. *)
Lemma window_ends_before_next_midnight :
  (tryBlock Sample.zone Manual "2024-03-10" Sample.world
     = (Returned tt, Sample.worldRolled) /\
   exists h,
     historicos (db Sample.worldRolled) !! 0%nat = Some h /\
     HistoricoOcupacao.fim h = Some 1710125999999 /\
     snd (midnightToMidnight Sample.zone (clock Sample.world) "2024-03-10")
       = Some 1710126000000 /\
     window h <> midnightToMidnight Sample.zone (clock Sample.world) "2024-03-10") /\
  (runSessionExpiryForDate Summer2018.zone "2018-11-04" Summer2018.world
     = (Returned tt, Summer2018.worldRolledNov) /\
   Luxon.parseISODate "2018-11-04" = Some (2018, 11, 4) /\
   exists h,
     historicos (db Summer2018.worldRolledNov) !! 0%nat = Some h /\
     HistoricoOcupacao.inicio h = Some 1541300400000 /\
     Luxon.localTS (Luxon.nowIn (Summer2018.zone ZONE) 1541300400000)
       = Luxon.daysFromCivil 2018 11 4 * Luxon.MS_PER_DAY + 3600000 /\
     forall t,
       Luxon.localTS (Luxon.nowIn (Summer2018.zone ZONE) t)
         <> Luxon.daysFromCivil 2018 11 4 * Luxon.MS_PER_DAY).
Proof.
  split.
  - split; [vm_compute; reflexivity|].
    eexists. split; [vm_compute; reflexivity|].
    split; [vm_compute; reflexivity|].
    split; [vm_compute; reflexivity|].
    vm_compute. discriminate.
  - split; [vm_compute; reflexivity|].
    split; [vm_compute; reflexivity|].
    eexists. split; [vm_compute; reflexivity|].
    split; [vm_compute; reflexivity|].
    split; [vm_compute; reflexivity|].
    intros t. unfold Luxon.localTS, Luxon.nowIn, Summer2018.zone. cbn [Luxon.ts Luxon.o].
    replace (Luxon.daysFromCivil 2018 11 4 * Luxon.MS_PER_DAY)
      with 1541289600000 by (vm_compute; reflexivity).
    unfold Luxon.MS_PER_MINUTE.
    destruct (Z.ltb_spec t 1541300400000);
      [|destruct (Z.ltb_spec t 1550368800000)]; lia.
Qed.

(** 2019-02-16 under the clocks of the summer of 2018: the day starts two
    hours behind UTC and the next one three hours behind, the clocks going
    back at its end; the rollover runs in March, three hours behind UTC. *)
Lemma window_is_the_local_day_witness :
  tryBlock Summer2018.zone Manual "2019-02-16" Summer2018.world
    = (Returned tt, Summer2018.worldRolledFeb) /\
  Luxon.parseISODate "2019-02-16" = Some (2019, 2, 16) /\
  settledAround (Summer2018.zone ZONE) (-120) 60
    (localMidnight (-120) (Luxon.daysFromCivil 2019 2 16)) /\
  settledAround (Summer2018.zone ZONE) (-180) 60
    (localMidnight (-180) (Luxon.daysFromCivil 2019 2 16 + 1)) /\
  Z.abs (Summer2018.zone ZONE (clock Summer2018.world) - -120) <= 60 /\
  Z.abs (-180 - -120) <= 60 /\
  exists created : list HistoricoOcupacao.t,
    historicos (db Summer2018.worldRolledFeb)
      = historicos (db Summer2018.world) ++ created /\
    Forall
      (fun h =>
         window h
           = (Some (localMidnight (-120) (Luxon.daysFromCivil 2019 2 16)),
              Some (localMidnight (-180) (Luxon.daysFromCivil 2019 2 16 + 1) - 1)))
      created.
Proof.
  assert (Hrun : tryBlock Summer2018.zone Manual "2019-02-16" Summer2018.world
                 = (Returned tt, Summer2018.worldRolledFeb))
    by (vm_compute; reflexivity).
  assert (Hd : Luxon.parseISODate "2019-02-16" = Some (2019, 2, 16))
    by (vm_compute; reflexivity).
  assert (Hs : settledAround (Summer2018.zone ZONE) (-120) 60
                 (localMidnight (-120) (Luxon.daysFromCivil 2019 2 16))).
  { intros t.
    replace (localMidnight (-120) (Luxon.daysFromCivil 2019 2 16))
      with 1550282400000 by (vm_compute; reflexivity).
    unfold Luxon.MS_PER_MINUTE, Summer2018.zone. intros Ht.
    destruct (Z.ltb_spec t 1541300400000); [lia|].
    destruct (Z.ltb_spec t 1550368800000); [reflexivity|lia]. }
  assert (Hs' : settledAround (Summer2018.zone ZONE) (-180) 60
                  (localMidnight (-180) (Luxon.daysFromCivil 2019 2 16 + 1))).
  { intros t.
    replace (localMidnight (-180) (Luxon.daysFromCivil 2019 2 16 + 1))
      with 1550372400000 by (vm_compute; reflexivity).
    unfold Luxon.MS_PER_MINUTE, Summer2018.zone. intros Ht.
    destruct (Z.ltb_spec t 1541300400000); [lia|].
    destruct (Z.ltb_spec t 1550368800000); [lia|reflexivity]. }
  assert (Hnow : Z.abs (Summer2018.zone ZONE (clock Summer2018.world) - -120) <= 60)
    by (vm_compute; discriminate).
  assert (Hcc : Z.abs (-180 - -120) <= 60) by lia.
  do 6 (split; [assumption|]).
  exact (window_is_the_local_day Summer2018.zone Manual "2019-02-16"
           Summer2018.world Summer2018.worldRolledFeb 2019 2 16 (-120) (-180) 60
           Hrun Hd Hs Hs' Hnow Hcc).
Defined.

(** The window of that day in figures: from 2019-02-16T02:00:00.000Z
    to 2019-02-17T02:59:59.999Z, the 25 hours of that local day less one
    millisecond. *)
Example window_of_a_day_of_25_hours :
  window <$> historicos (db Summer2018.worldRolledFeb)
    = [(Some 1550282400000, Some 1550372399999)] /\
  localMidnight (-120) (Luxon.daysFromCivil 2019 2 16) = 1550282400000 /\
  localMidnight (-180) (Luxon.daysFromCivil 2019 2 16 + 1) - 1 = 1550372399999.
Proof. vm_compute. by repeat split. Qed.

(** An ordinary day, 2024-03-10 in the zone three hours behind UTC: from
    2024-03-10T03:00:00.000Z to 2024-03-11T02:59:59.999Z. *)
Example window_of_an_ordinary_day :
  window <$> historicos (db Sample.worldRolled)
    = [(Some 1710039600000, Some 1710125999999);
       (Some 1710039600000, Some 1710125999999)] /\
  localMidnight (-180) (Luxon.daysFromCivil 2024 3 10) = 1710039600000 /\
  localMidnight (-180) (Luxon.daysFromCivil 2024 3 10 + 1) - 1 = 1710125999999.
Proof. vm_compute. by repeat split. Qed.

(** On a day whose local midnight does not exist the window starts at the
    first instant of the day, 01:00 local time (03:00 UTC), and ends one
    millisecond before the next local midnight (02:00 UTC), 23 hours
    later; the guess luxon starts from does not matter. *)
Example window_of_a_day_without_midnight :
  dayWindow Sample.zoneSpringForward 1541200000000 "2018-11-04"
    = (Some 1541300400000, Some 1541383199999) /\
  dayWindow Sample.zoneSpringForward 1710100000000 "2018-11-04"
    = (Some 1541300400000, Some 1541383199999).
Proof. vm_compute. by split. Qed.

Lemma errors_logged_then_rethrown_or_swallowed_witness :
  firstFault (callsOf "2024-03-10" Sample.worldSaveFails)
    (faults Sample.worldSaveFails) = Some "deadlock detected" /\
  fst (rollover Sample.zone Manual "2024-03-10" Sample.worldSaveFails)
    = Thrown "deadlock detected" /\
  console (snd (rollover Sample.zone Manual "2024-03-10" Sample.worldSaveFails))
    = console Sample.worldSaveFails
        ++ [(warning Manual, "deadlock detected")] /\
  forall dateStr w0, fst (onTimeout_await Sample.zone dateStr w0) = Returned tt.
Proof.
  split; [vm_compute; reflexivity|].
  apply (errors_logged_then_rethrown_or_swallowed Sample.zone Manual "2024-03-10"
           Sample.worldSaveFails "deadlock detected").
  vm_compute. reflexivity.
Defined.

(** The second [save] fails: the first record stays in the table, the
    beds and the sessions are not touched, and the scheduler's entry point
    returns after its warning. *)
Example failed_save_leaves_partial_writes :
  let w := snd (runForDate Sample.zone "2024-03-10" Sample.worldSaveFails) in
  fst (runForDate Sample.zone "2024-03-10" Sample.worldSaveFails) = Returned tt /\
  length (historicos (db w)) = 1%nat /\
  leitos (db w) = leitos Sample.ds /\
  avaliacoes (db w) = avaliacoes Sample.ds /\
  console w = [("Job daily-reset falhou:", "deadlock detected")].
Proof. vm_compute. repeat split. Qed.

Lemma failed_fetch_writes_nothing_witness :
  head (faults Sample.worldFetchFails) = Some (Some "connection lost") /\
  db (snd (rollover Sample.zone Scheduler "2024-03-10" Sample.worldFetchFails))
    = db Sample.worldFetchFails /\
  fst (rollover Sample.zone Scheduler "2024-03-10" Sample.worldFetchFails)
    = Returned tt.
Proof.
  split; [reflexivity|].
  apply (failed_fetch_writes_nothing Sample.zone Scheduler "2024-03-10"
           Sample.worldFetchFails "connection lost").
  reflexivity.
Defined.

Lemma second_run_duplicates_snapshots_witness :
  tryBlock Sample.zone Manual "2024-03-10" Sample.world
    = (Returned tt, Sample.worldRolled) /\
  tryBlock Sample.zone Scheduler "2024-03-10" Sample.worldRolled
    = (Returned tt, Sample.worldRolledTwice) /\
  let ofDay :=
    List.filter (fun r => bool_decide (AvaliacaoRow.dataAplicacao r = "2024-03-10"))
      (avaliacoes (db Sample.world)) in
  let bed := fun r =>
    AvaliacaoRow.leitoId r ≫=
      (fun k => List.find (fun l => bool_decide (Leito.id l = k))
                  (leitos (db Sample.world))) in
  exists first second : list (list HistoricoOcupacao.t),
    historicos (db Sample.worldRolled)
      = historicos (db Sample.world) ++ concat first /\
    historicos (db Sample.worldRolledTwice)
      = historicos (db Sample.worldRolled) ++ concat second /\
    Forall2
      (fun r hs =>
         match bed r with
         | Some l =>
             exists h,
               hs = [h] /\
               HistoricoOcupacao.leito h = l /\
               HistoricoOcupacao.leitoNumero h = Leito.numero l /\
               HistoricoOcupacao.leitoStatus h = Leito.status l /\
               HistoricoOcupacao.scp h = AvaliacaoRow.scp r /\
               HistoricoOcupacao.totalPontos h = AvaliacaoRow.totalPontos r /\
               HistoricoOcupacao.classificacao h = AvaliacaoRow.classificacao r /\
               HistoricoOcupacao.itens h = AvaliacaoRow.itens r
         | None => hs = []
         end)
      ofDay first /\
    Forall2
      (fun r hs =>
         match bed r with
         | Some l =>
             exists h,
               hs = [h] /\
               HistoricoOcupacao.leito h = setStatusLeito PENDENTE l /\
               HistoricoOcupacao.leitoNumero h = Leito.numero l /\
               HistoricoOcupacao.leitoStatus h = Some PENDENTE /\
               HistoricoOcupacao.scp h = AvaliacaoRow.scp r /\
               HistoricoOcupacao.totalPontos h = AvaliacaoRow.totalPontos r /\
               HistoricoOcupacao.classificacao h = AvaliacaoRow.classificacao r /\
               HistoricoOcupacao.itens h = AvaliacaoRow.itens r
         | None => hs = []
         end)
      ofDay second.
Proof.
  split; [vm_compute; reflexivity|].
  split; [vm_compute; reflexivity|].
  apply (second_run_duplicates_snapshots Sample.zone Manual Scheduler "2024-03-10"
           Sample.world Sample.worldRolled Sample.worldRolledTwice);
    vm_compute; reflexivity.
Defined.

(** The four history rows after the two runs: two per assessment with a
    bed, the second pair with the bed status the first run left. *)
Example second_run_rows :
  (fun h => (Leito.id (HistoricoOcupacao.leito h), HistoricoOcupacao.leitoStatus h))
    <$> historicos (db Sample.worldRolledTwice)
  = [("L1", Some OCUPADO); ("L3", Some VAGO);
     ("L1", Some PENDENTE); ("L3", Some PENDENTE)].
Proof. vm_compute. reflexivity. Qed.

Lemma missing_relations_are_recorded_as_null_witness :
  Forall (eq None) (faults Sample.world) /\
  Sample.avalBedOnly ∈ assessmentsOn "2024-03-10" Sample.world /\
  AvaliacaoSCP.leito Sample.avalBedOnly = Some Sample.leito3 /\
  exists w' created h,
    tryBlock Sample.zone Manual "2024-03-10" Sample.world = (Returned tt, w') /\
    historicos (db w') = historicos (db Sample.world) ++ created /\
    h ∈ created /\
    HistoricoOcupacao.leito h = Sample.leito3 /\
    (AvaliacaoSCP.unidade Sample.avalBedOnly = None ->
       HistoricoOcupacao.unidadeId h = None /\
       HistoricoOcupacao.hospitalId h = None) /\
    (forall u, AvaliacaoSCP.unidade Sample.avalBedOnly = Some u ->
       Unidade.hospital u = None ->
       HistoricoOcupacao.unidadeId h = Some (Unidade.id u) /\
       HistoricoOcupacao.hospitalId h = None) /\
    (AvaliacaoSCP.autor Sample.avalBedOnly = None ->
       HistoricoOcupacao.autorId h = None /\
       HistoricoOcupacao.autorNome h = None) /\
    HistoricoOcupacao.scp h = AvaliacaoSCP.scp Sample.avalBedOnly /\
    HistoricoOcupacao.totalPontos h = AvaliacaoSCP.totalPontos Sample.avalBedOnly /\
    HistoricoOcupacao.classificacao h = AvaliacaoSCP.classificacao Sample.avalBedOnly /\
    HistoricoOcupacao.itens h = AvaliacaoSCP.itens Sample.avalBedOnly.
Proof.
  assert (Hf : Forall (eq None) (faults Sample.world)) by (vm_compute; constructor).
  assert (Ha : Sample.avalBedOnly ∈ assessmentsOn "2024-03-10" Sample.world).
  { apply list_elem_of_In. vm_compute. right. right. left. reflexivity. }
  assert (Hl : AvaliacaoSCP.leito Sample.avalBedOnly = Some Sample.leito3)
    by (vm_compute; reflexivity).
  split; [exact Hf|]. split; [exact Ha|]. split; [exact Hl|].
  exact (missing_relations_are_recorded_as_null Sample.zone Manual "2024-03-10"
           Sample.world Sample.avalBedOnly Sample.leito3 Hf Ha Hl).
Defined.

(** *** The scheduler *)

Section Scheduler.

Variable zoneOffset : string -> Z -> Z.

#[local] Abbreviation step := (step zoneOffset).
#[local] Abbreviation run := (run zoneOffset).
#[local] Abbreviation scheduleNext := (scheduleNext zoneOffset).
#[local] Abbreviation scheduleSessionExpiry := (scheduleSessionExpiry zoneOffset).

Lemma world_eta w :
  mkWorld (db w) (faults w) (console w) (clock w) (timers w) (nextHandle w)
    (awaiting w) = w.
Proof. by destruct w. Qed.

Lemma clearTimeout_nil h w : timers w = [] -> clearTimeout h w = w.
Proof.
  intros H. unfold clearTimeout, setTimers. rewrite H. simpl.
  rewrite <- H. apply world_eta.
Qed.

Lemma clearTimeout_other h t w :
  timers w = [t] -> handle t <> h -> clearTimeout h w = w.
Proof.
  intros H Hne. unfold clearTimeout, setTimers. rewrite H. simpl.
  apply Nat.eqb_neq in Hne. rewrite Hne. simpl.
  rewrite <- H. apply world_eta.
Qed.

Lemma timers_clearTimeout_same t w :
  timers w = [t] -> timers (clearTimeout (handle t) w) = [].
Proof.
  intros H. unfold clearTimeout. simpl. rewrite H. simpl.
  by rewrite Nat.eqb_refl.
Qed.

(** With no timer armed and no callback suspended nothing happens any
    more. *)
Lemma step_idle h ev w :
  timers w = [] -> awaiting w = None -> step (clearTimeout h) ev w = w.
Proof.
  intros Ht Ha. destruct ev as [h' late|elapsed|]; simpl.
  - by rewrite Ht.
  - by rewrite Ha.
  - by apply clearTimeout_nil.
Qed.

Lemma run_cons stop ev evs w :
  run stop (ev :: evs) w = run stop evs (step stop ev w).
Proof. reflexivity. Qed.

Lemma run_idle h evs w :
  timers w = [] -> awaiting w = None -> run (clearTimeout h) evs w = w.
Proof.
  intros Ht Ha. induction evs as [|ev evs IH]; [reflexivity|].
  by rewrite run_cons, step_idle.
Qed.

Lemma sameTimers_runForDate d w :
  sameTimers w (snd (runForDate zoneOffset d w)).
Proof.
  unfold runForDate, tryCatch.
  destruct (runForDate_try zoneOffset d w) as [[[]|e] w1] eqn:E;
    apply (keepsHost_tryBlock zoneOffset Scheduler) in E;
    destruct E as (_ & Ht & Hn & Ha & _); by repeat split.
Qed.

Lemma sameTimers_onTimeout_await dateStr w :
  sameTimers w (snd (onTimeout_await zoneOffset dateStr w)).
Proof.
  unfold onTimeout_await. destruct (negb _).
  - apply sameTimers_runForDate.
  - by repeat split.
Qed.

Lemma scheduleNext_arms w :
  exists due,
    scheduleNext w =
      (nextHandle w,
       setTimers (timers w ++ [mkTimer (nextHandle w) due]) (S (nextHandle w)) w).
Proof. unfold scheduleNext, setTimeout. eauto. Qed.

(** The timer that is armed fires: its callback is suspended at the
    [await], and no timer is armed. *)
Lemma step_fires stop firstHandle t late w :
  armedAgain firstHandle w -> timers w = [t] ->
  rolloverInFlight firstHandle (step stop (TimerFires (handle t) late) w).
Proof.
  intros [Ha (t' & Ht' & Hlt)] Ht. simpl. rewrite Ht, Ha. simpl.
  rewrite Nat.eqb_refl. simpl. split; [eauto|]. split.
  - simpl. rewrite Ht. simpl. by rewrite Nat.eqb_refl.
  - simpl. lia.
Qed.

(** The awaited rollover settles: the next timer is armed, with a new
    handle. *)
Lemma step_settles stop firstHandle dateStr elapsed w :
  rolloverInFlight firstHandle w -> awaiting w = Some dateStr ->
  armedAgain firstHandle (step stop (RolloverSettles elapsed) w) /\
  db (step stop (RolloverSettles elapsed) w)
    = db (snd (onTimeout_await zoneOffset dateStr (setAwaiting None w))).
Proof.
  intros (_ & Ht & Hlt) Ha.
  destruct (sameTimers_onTimeout_await dateStr (setAwaiting None w))
    as (Ht1 & Hn1 & Ha1).
  set (w1 := snd (onTimeout_await zoneOffset dateStr (setAwaiting None w))) in *.
  assert (E : step stop (RolloverSettles elapsed) w
              = snd (scheduleNext (setClock (clock w1 + Z.of_N elapsed) w1))).
  { unfold step. by rewrite Ha. }
  rewrite E.
  destruct (scheduleNext_arms (setClock (clock w1 + Z.of_N elapsed) w1))
    as [due ->].
  simpl in *. split; [|reflexivity]. split; [exact Ha1|].
  exists (mkTimer (nextHandle w1) due). rewrite Ht1, Ht, Hn1. simpl.
  split; [reflexivity | lia].
Qed.

(** Once the first timer has fired, clearing it changes nothing. *)
Lemma stop_no_effect firstHandle w :
  loopAlive firstHandle w -> clearTimeout firstHandle w = w.
Proof.
  intros [[_ (t & Ht & Hlt)] | (_ & Ht & _)].
  - apply (clearTimeout_other _ t); [exact Ht | lia].
  - by apply clearTimeout_nil.
Qed.

Lemma loopAlive_step firstHandle ev w :
  loopAlive firstHandle w ->
  loopAlive firstHandle (step (clearTimeout firstHandle) ev w).
Proof.
  intros Hw. destruct ev as [h late|elapsed|].
  - destruct Hw as [Harmed | Hfl].
    + pose proof Harmed as [Ha (t & Ht & Hlt)].
      destruct (Nat.eq_dec (handle t) h) as [<-|Hne].
      * right. by apply step_fires.
      * left. simpl. rewrite Ht. simpl.
        apply Nat.eqb_neq in Hne. by rewrite Hne.
    + right. destruct Hfl as (Ha & Ht & Hlt). simpl. by rewrite Ht.
  - destruct Hw as [Harmed | Hfl].
    + left. destruct Harmed as [Ha Ht]. simpl. by rewrite Ha.
    + left. pose proof Hfl as ([dateStr Ha] & _).
      by apply (step_settles _ _ dateStr).
  - simpl. by rewrite stop_no_effect.
Qed.

Lemma loopAlive_run firstHandle evs w :
  loopAlive firstHandle w ->
  loopAlive firstHandle (run (clearTimeout firstHandle) evs w).
Proof.
  revert w. induction evs as [|ev evs IH]; intros w Hw; [exact Hw|].
  rewrite run_cons. by apply IH, loopAlive_step.
Qed.

(** C9. The function [scheduleSessionExpiry] returns clears the first
    timer it armed and no other.  Called before that timer fires, it
    leaves no timer armed, and no rollover ever runs: whatever happens
    next, the world stays as it is.  Called after the first timer has
    fired, at any later moment, it changes nothing: the loop goes on
    between a suspended callback, which arms the next timer when its
    rollover settles, and an armed timer, which fires into the next
    callback. *)
Theorem stop_clears_only_the_first_timer w0 :
  timers w0 = [] -> awaiting w0 = None ->
  let stop := fst (scheduleSessionExpiry w0) in
  let w1 := snd (scheduleSessionExpiry w0) in
  let firstHandle := nextHandle w0 in
  (exists due, timers w1 = [mkTimer firstHandle due]) /\
  (forall evs,
     run stop evs (stop w1) = stop w1 /\
     timers (stop w1) = [] /\ awaiting (stop w1) = None /\
     db (stop w1) = db w0 /\ faults (stop w1) = faults w0 /\
     console (stop w1) = console w0) /\
  (forall late evs,
     let w := run stop evs (step stop (TimerFires firstHandle late) w1) in
     stop w = w /\ loopAlive firstHandle w) /\
  (forall w, loopAlive firstHandle w ->
     (forall t late, timers w = [t] -> awaiting w = None ->
        rolloverInFlight firstHandle (step stop (TimerFires (handle t) late) w)) /\
     (forall dateStr elapsed, awaiting w = Some dateStr ->
        armedAgain firstHandle (step stop (RolloverSettles elapsed) w) /\
        db (step stop (RolloverSettles elapsed) w)
          = db (snd (onTimeout_await zoneOffset dateStr (setAwaiting None w))))).
Proof.
  intros Ht0 Ha0. unfold scheduleSessionExpiry.
  destruct (scheduleNext_arms w0) as [due E]. rewrite E, Ht0.
  cbn [fst snd app]. cbv zeta.
  change (fun w'' => clearTimeout (nextHandle w0) w'')
    with (clearTimeout (nextHandle w0)).
  set (w1 := setTimers [mkTimer (nextHandle w0) due] (S (nextHandle w0)) w0).
  assert (Hstop : timers (clearTimeout (nextHandle w0) w1) = []).
  { apply (timers_clearTimeout_same (mkTimer (nextHandle w0) due)). reflexivity. }
  split; [by exists due|]. split; [|split].
  - intros evs. split; [by apply run_idle|]. by repeat split.
  - intros late evs.
    assert (Hfl : loopAlive (nextHandle w0)
              (step (clearTimeout (nextHandle w0))
                 (TimerFires (nextHandle w0) late) w1)).
    { right. unfold step, w1. simpl. rewrite Nat.eqb_refl, Ha0.
      split; [eauto|]. simpl. rewrite Nat.eqb_refl. split; [reflexivity | lia]. }
    pose proof (loopAlive_run _ evs _ Hfl) as Hrun.
    split; [by apply stop_no_effect | exact Hrun].
  - intros w Hw. split.
    + intros t late Ht Ha. destruct Hw as [Harmed | ([d Hd] & _ & _)].
      * by apply step_fires.
      * congruence.
    + intros dateStr elapsed Ha. destruct Hw as [[Ha' _] | Hfl].
      * congruence.
      * by apply step_settles.
Qed.

End Scheduler.

Lemma stop_clears_only_the_first_timer_witness :
  timers Sample.world = [] /\ awaiting Sample.world = None /\
  let stop := fst (scheduleSessionExpiry Sample.zone Sample.world) in
  let w1 := snd (scheduleSessionExpiry Sample.zone Sample.world) in
  let firstHandle := nextHandle Sample.world in
  (exists due, timers w1 = [mkTimer firstHandle due]) /\
  (forall evs,
     run Sample.zone stop evs (stop w1) = stop w1 /\
     timers (stop w1) = [] /\ awaiting (stop w1) = None /\
     db (stop w1) = db Sample.world /\ faults (stop w1) = faults Sample.world /\
     console (stop w1) = console Sample.world) /\
  (forall late evs,
     let w :=
       run Sample.zone stop evs
         (step Sample.zone stop (TimerFires firstHandle late) w1) in
     stop w = w /\ loopAlive firstHandle w) /\
  (forall w, loopAlive firstHandle w ->
     (forall t late, timers w = [t] -> awaiting w = None ->
        rolloverInFlight firstHandle
          (step Sample.zone stop (TimerFires (handle t) late) w)) /\
     (forall dateStr elapsed, awaiting w = Some dateStr ->
        armedAgain firstHandle (step Sample.zone stop (RolloverSettles elapsed) w) /\
        db (step Sample.zone stop (RolloverSettles elapsed) w)
          = db (snd (onTimeout_await Sample.zone dateStr (setAwaiting None w))))).
Proof.
  split; [reflexivity|]. split; [reflexivity|].
  apply (stop_clears_only_the_first_timer Sample.zone Sample.world); reflexivity.
Defined.

(** The scheduler started in the afternoon of 2024-03-10 arms timer 1 for
    local midnight.  Stopped at once, nothing ever runs.  Stopped only after
    timer 1 has fired, the rollover of 2024-03-10 runs (two records), timer
    2 is armed for the next midnight and fires in its turn, and timer 3 is
    armed after it. *)
Example stop_before_and_after_the_first_midnight :
  let '(stop, w1) := scheduleSessionExpiry Sample.zone Sample.world in
  timers w1 = [mkTimer 1 1710126000000] /\
  (let w := run Sample.zone stop
              [Stop; TimerFires 1 0; RolloverSettles 40; TimerFires 2 0] w1 in
   (timers w, awaiting w, length (historicos (db w))) = ([], None, 0%nat)) /\
  (let w := run Sample.zone stop [TimerFires 1 3; Stop; RolloverSettles 40; Stop] w1 in
   (timers w, awaiting w, length (historicos (db w)))
     = ([mkTimer 2 1710212400000], None, 2%nat)) /\
  (let w := run Sample.zone stop
              [TimerFires 1 3; Stop; RolloverSettles 40; Stop;
               TimerFires 2 0; Stop; RolloverSettles 40] w1 in
   (timers w, awaiting w, length (historicos (db w)))
     = ([mkTimer 3 1710298800000], None, 2%nat)).
Proof. vm_compute. repeat split. Qed.

(** *** Days and dates *)

Lemma doyChecksFrom_holds n doy k :
  doyChecksFrom n doy = true -> doy <= k < doy + Z.of_nat n ->
  doyChecks k = true.
Proof.
  revert doy. induction n as [|n IH]; intros doy H Hk; [lia|].
  simpl in H. apply andb_true_iff in H as [H1 H2].
  destruct (Z.eq_dec k doy) as [->|Hne]; [exact H1|].
  apply (IH (doy + 1)); [exact H2 | lia].
Qed.

Lemma doyChecks_holds doy : 0 <= doy <= 365 -> doyChecks doy = true.
Proof.
  intros H. apply (doyChecksFrom_holds 366 0); [vm_compute; reflexivity | lia].
Qed.

(** A day of an era falls in one of its 400 years, on one of the 365 or
    366 days of that year. *)
Lemma yoeOfDoe_bounds doe :
  0 <= doe < 146097 ->
  0 <= yoeOfDoe doe <= 399 /\ 0 <= doyOfDoe doe <= 365.
Proof.
  intros H. unfold doyOfDoe, yoeOfDoe. Z.div_mod_to_equations. lia.
Qed.

(** The day after the 365th exists in the years before a leap year only
    (the years are counted from March 1). *)
Lemma doyOfDoe_leap doe :
  0 <= doe < 146097 -> doyOfDoe doe = 365 ->
  Luxon.isLeapYear (yoeOfDoe doe + 1) = true.
Proof.
  intros H Hd.
  assert (Hm : (yoeOfDoe doe + 1) mod 4 = 0 /\
               ((yoeOfDoe doe + 1) mod 100 <> 0 \/ (yoeOfDoe doe + 1) mod 400 = 0)).
  { revert Hd. unfold doyOfDoe, yoeOfDoe. Z.div_mod_to_equations. lia. }
  unfold Luxon.isLeapYear. destruct Hm as [-> [Hm | ->]]; simpl.
  - apply Z.eqb_neq in Hm. by rewrite Hm.
  - apply orb_true_r.
Qed.

Lemma civilFromDays_era z :
  Luxon.civilFromDays z =
  let era := (z + 719468) / 146097 in
  let doe := z + 719468 - era * 146097 in
  let '(m, d) := civilOfDoy (doyOfDoe doe) in
  (if m <=? 2 then yoeOfDoe doe + era * 400 + 1 else yoeOfDoe doe + era * 400,
   m, d).
Proof. reflexivity. Qed.

Lemma isLeapYear_era y e : Luxon.isLeapYear (y + e * 400) = Luxon.isLeapYear y.
Proof.
  unfold Luxon.isLeapYear.
  replace ((y + e * 400) mod 4) with (y mod 4)
    by (replace (e * 400) with (e * 100 * 4) by lia; by rewrite Z_mod_plus_full).
  replace ((y + e * 400) mod 100) with (y mod 100)
    by (replace (e * 400) with (e * 4 * 100) by lia; by rewrite Z_mod_plus_full).
  by rewrite Z_mod_plus_full.
Qed.

Lemma daysInMonth_era y e m :
  Luxon.daysInMonth (y + e * 400) m = Luxon.daysInMonth y m.
Proof. unfold Luxon.daysInMonth. by rewrite isLeapYear_era. Qed.

Lemma daysInMonth_common_le y m : Luxon.daysInMonth 1 m <= Luxon.daysInMonth y m.
Proof.
  unfold Luxon.daysInMonth.
  destruct (m =? 2); [|reflexivity].
  destruct (Luxon.isLeapYear y); simpl; lia.
Qed.

(** Every day number has a date of the calendar, and the date leads back to
    the day number. *)
Lemma daysFromCivil_civilFromDays z :
  let '(y, m, d) := Luxon.civilFromDays z in
  Luxon.daysFromCivil y m d = z /\
  1 <= m <= 12 /\ 1 <= d <= Luxon.daysInMonth y m /\
  ((z + 719468) / 146097) * 400 <= y <= ((z + 719468) / 146097) * 400 + 400.
Proof.
  rewrite civilFromDays_era. cbv zeta.
  set (era := (z + 719468) / 146097).
  set (doe := z + 719468 - era * 146097).
  assert (Hdoe : 0 <= doe < 146097).
  { unfold doe, era. pose proof (Z.mod_pos_bound (z + 719468) 146097 eq_refl).
    pose proof (Z.div_mod (z + 719468) 146097). lia. }
  pose proof (yoeOfDoe_bounds doe Hdoe) as [Hyoe Hdoy].
  pose proof (doyOfDoe_leap doe Hdoe) as Hleap.
  pose proof (doyChecks_holds _ Hdoy) as Hc. unfold doyChecks in Hc.
  assert (Hsum : doe = yoeOfDoe doe * 365 + yoeOfDoe doe / 4
                       - yoeOfDoe doe / 100 + doyOfDoe doe)
    by (unfold doyOfDoe; lia).
  set (yoe := yoeOfDoe doe) in *. set (doy := doyOfDoe doe) in *.
  destruct (civilOfDoy doy) as [m d].
  apply andb_true_iff in Hc as [Hc Hlast].
  repeat (apply andb_true_iff in Hc as [Hc ?]).
  repeat match goal with
         | H : (_ <=? _) = true |- _ => apply Z.leb_le in H
         | H : (_ =? _) = true |- _ => apply Z.eqb_eq in H
         end.
  assert (Hy : (if m <=? 2 then yoe + era * 400 + 1 else yoe + era * 400)
               = (if m <=? 2 then yoe + 1 else yoe) + era * 400)
    by (destruct (m <=? 2); lia).
  rewrite Hy, daysInMonth_era. split; [|split; [lia|split; [split; [lia|]|]]].
  - unfold Luxon.daysFromCivil.
    replace (if m <=? 2
             then (if m <=? 2 then yoe + 1 else yoe) + era * 400 - 1
             else (if m <=? 2 then yoe + 1 else yoe) + era * 400)
      with (yoe + era * 400) by (destruct (m <=? 2); lia).
    rewrite Z.div_add, (Z.div_small yoe 400) by lia. cbv zeta.
    replace (yoe + era * 400 - (0 + era) * 400) with yoe by lia.
    unfold doyOfCivil in *. unfold doe in Hsum. lia.
  - destruct (Z.eqb_spec doy 365) as [E|_].
    + apply andb_true_iff in Hlast as [Hm2 Hd29].
      apply Z.eqb_eq in Hm2, Hd29. subst m d. simpl.
      unfold Luxon.daysInMonth. simpl. rewrite (Hleap E). lia.
    + apply Z.leb_le in Hlast.
      pose proof (daysInMonth_common_le (if m <=? 2 then yoe + 1 else yoe) m). lia.
  - destruct (m <=? 2); lia.
Qed.

Lemma civilFromDays_year z :
  0 <= z + 719468 < 146097 * 24 ->
  0 <= fst (fst (Luxon.civilFromDays z)) <= 9999.
Proof.
  intros Hz. pose proof (daysFromCivil_civilFromDays z) as H.
  destruct (Luxon.civilFromDays z) as [[y m] d]. simpl.
  destruct H as (_ & _ & _ & Hy).
  assert (0 <= (z + 719468) / 146097 <= 23).
  { split; [apply Z.div_pos; lia|].
    apply Z.lt_succ_r, Z.div_lt_upper_bound; lia. }
  lia.
Qed.

Lemma digitOf_digitChar n : Luxon.digitOf (Luxon.digitChar n) = Some (n mod 10).
Proof.
  pose proof (Z.mod_pos_bound n 10 eq_refl) as Hr.
  unfold Luxon.digitOf, Luxon.digitChar.
  rewrite N_ascii_embedding by lia. rewrite Z2N.id by lia.
  replace (48 <=? 48 + n mod 10) with true by (symmetry; apply Z.leb_le; lia).
  replace (48 + n mod 10 <=? 57) with true by (symmetry; apply Z.leb_le; lia).
  simpl. f_equal. lia.
Qed.

Lemma number_padStart_4 y :
  0 <= y <= 9999 -> Luxon.number (Luxon.padStart 4 y) = Some y.
Proof.
  intros Hy. unfold Luxon.number. simpl.
  rewrite !digitOf_digitChar. f_equal. Z.div_mod_to_equations. lia.
Qed.

Lemma number_padStart_2 n :
  0 <= n <= 99 -> Luxon.number (Luxon.padStart 2 n) = Some n.
Proof.
  intros Hn. unfold Luxon.number. simpl.
  rewrite !digitOf_digitChar. f_equal. Z.div_mod_to_equations. lia.
Qed.

Lemma daysInMonth_le_31 y m : Luxon.daysInMonth y m <= 31.
Proof.
  unfold Luxon.daysInMonth.
  repeat match goal with |- context [if ?b then _ else _] => destruct b end; lia.
Qed.

(** A date of the calendar written as [yyyy-mm-dd] is read back as it
    was. *)
Lemma parseISODate_written y m d :
  0 <= y <= 9999 -> 1 <= m <= 12 -> 1 <= d <= Luxon.daysInMonth y m ->
  Luxon.parseISODate
    (string_of_list_ascii
       (Luxon.padStart 4 y ++ ["-"%char] ++ Luxon.padStart 2 m
          ++ ["-"%char] ++ Luxon.padStart 2 d))
  = Some (y, m, d).
Proof.
  intros Hy Hm Hd. pose proof (daysInMonth_le_31 y m) as H31.
  pose proof (number_padStart_4 y Hy) as Ny.
  pose proof (number_padStart_2 m ltac:(lia)) as Nm.
  pose proof (number_padStart_2 d ltac:(lia)) as Nd.
  unfold Luxon.parseISODate. rewrite list_ascii_of_string_of_list_ascii.
  cbn [Luxon.padStart app] in *. rewrite Ny, Nm, Nd.
  replace (1 <=? m) with true by (symmetry; apply Z.leb_le; lia).
  replace (m <=? 12) with true by (symmetry; apply Z.leb_le; lia).
  replace (1 <=? d) with true by (symmetry; apply Z.leb_le; lia).
  replace (d <=? Luxon.daysInMonth y m) with true by (symmetry; apply Z.leb_le; lia).
  reflexivity.
Qed.

Lemma toISODate_isoOfDay dt :
  Luxon.toISODate dt = isoOfDay (Luxon.localTS dt / Luxon.MS_PER_DAY).
Proof.
  unfold isoOfDay, Luxon.toISODate, Luxon.localTS. simpl.
  by rewrite Z.add_0_r, Z_div_mult.
Qed.

(** The date string of a day between the years 0 and 9600 is read back as
    the date of that day. *)
Lemma parseISODate_isoOfDay z :
  0 <= z + 719468 < 146097 * 24 ->
  Luxon.parseISODate (isoOfDay z) = Some (Luxon.civilFromDays z).
Proof.
  intros Hz. pose proof (civilFromDays_year z Hz) as Hy.
  pose proof (daysFromCivil_civilFromDays z) as H.
  unfold isoOfDay, Luxon.toISODate, Luxon.localTS. simpl Luxon.ts. simpl Luxon.o.
  rewrite Z.mul_0_l, Z.add_0_r, Z_div_mult by reflexivity.
  destruct (Luxon.civilFromDays z) as [[y m] d]. simpl in Hy.
  destruct H as (_ & Hm & Hd & _).
  replace ((0 <=? y) && (y <=? 9999)) with true
    by (symmetry; apply andb_true_iff; split; apply Z.leb_le; lia).
  by apply parseISODate_written.
Qed.

(** *** The dates of the scheduler, in a zone at a constant offset *)

Section ConstantOffset.

Variable zoneOffset : string -> Z -> Z.
Variable c : Z.
Hypothesis constant : forall t, zoneOffset ZONE t = c.

Lemma startOfDay_at_constant_offset t :
  Luxon.startOfDay (zoneOffset ZONE) (Luxon.mkDT t c)
    = Luxon.mkDT (t - (t + c * Luxon.MS_PER_MINUTE) mod Luxon.MS_PER_DAY) c.
Proof.
  unfold Luxon.startOfDay, Luxon.localTS. simpl.
  rewrite (fixOffset_constant _ c) by exact constant. f_equal. lia.
Qed.

Lemma nextLocalMidnight_spec t :
  t < nextLocalMidnight c t <= t + Luxon.MS_PER_DAY /\
  (nextLocalMidnight c t + c * Luxon.MS_PER_MINUTE) mod Luxon.MS_PER_DAY = 0.
Proof.
  unfold nextLocalMidnight.
  pose proof (Z.mod_pos_bound (t + c * Luxon.MS_PER_MINUTE) Luxon.MS_PER_DAY eq_refl).
  split; [lia|].
  replace (t + (Luxon.MS_PER_DAY - (t + c * Luxon.MS_PER_MINUTE) mod Luxon.MS_PER_DAY)
           + c * Luxon.MS_PER_MINUTE)
    with ((t + c * Luxon.MS_PER_MINUTE)
          - (t + c * Luxon.MS_PER_MINUTE) mod Luxon.MS_PER_DAY
          + 1 * Luxon.MS_PER_DAY) by lia.
  rewrite Z_mod_plus_full.
  rewrite Zminus_mod, Zmod_mod, Z.sub_diag. reflexivity.
Qed.

Lemma scheduleNext_at_constant_offset w :
  scheduleNext zoneOffset w =
    (nextHandle w,
     setTimers
       (timers w ++ [mkTimer (nextHandle w) (nextLocalMidnight c (clock w))])
       (S (nextHandle w)) w).
Proof.
  pose proof (nextLocalMidnight_spec (clock w)) as [Hlt _].
  unfold scheduleNext, Luxon.nowIn. rewrite constant.
  rewrite (plusDays_constant _ c) by exact constant.
  rewrite startOfDay_at_constant_offset. cbn [Luxon.ts].
  assert (E : clock w + 1 * Luxon.MS_PER_DAY
              - (clock w + 1 * Luxon.MS_PER_DAY + c * Luxon.MS_PER_MINUTE)
                  mod Luxon.MS_PER_DAY - clock w
              = nextLocalMidnight c (clock w) - clock w).
  { unfold nextLocalMidnight.
    replace (clock w + 1 * Luxon.MS_PER_DAY + c * Luxon.MS_PER_MINUTE)
      with (clock w + c * Luxon.MS_PER_MINUTE + 1 * Luxon.MS_PER_DAY) by lia.
    rewrite Z_mod_plus_full. lia. }
  rewrite E. unfold setTimeout.
  replace ((1 <=? nextLocalMidnight c (clock w) - clock w)
           && (nextLocalMidnight c (clock w) - clock w <=? 2147483647))
    with true.
  - replace (clock w + (nextLocalMidnight c (clock w) - clock w))
      with (nextLocalMidnight c (clock w)) by lia.
    reflexivity.
  - symmetry. apply andb_true_iff. unfold Luxon.MS_PER_DAY in *.
    split; apply Z.leb_le; lia.
Qed.

(** X1. In a zone at a constant offset [scheduleNext] arms one more timer,
    with the next free handle, for the local midnight that follows the
    clock: an instant strictly after the clock, at most 24 hours after it
    (24 hours exactly when called at a local midnight), at which the local
    time of day is 00:00:00.000. *)
Theorem scheduleNext_arms_the_next_local_midnight w :
  scheduleNext zoneOffset w =
    (nextHandle w,
     setTimers
       (timers w ++ [mkTimer (nextHandle w) (nextLocalMidnight c (clock w))])
       (S (nextHandle w)) w) /\
  clock w < nextLocalMidnight c (clock w) <= clock w + Luxon.MS_PER_DAY /\
  (nextLocalMidnight c (clock w) + c * Luxon.MS_PER_MINUTE) mod Luxon.MS_PER_DAY = 0.
Proof.
  split; [apply scheduleNext_at_constant_offset | apply nextLocalMidnight_spec].
Qed.

(** The date the timer callback computes is the local date of the day
    before the one the clock is in. *)
Lemma onTimeout_dateStr_at_constant_offset w :
  onTimeout_dateStr zoneOffset w
    = isoOfDay ((clock w + c * Luxon.MS_PER_MINUTE) / Luxon.MS_PER_DAY - 1).
Proof.
  unfold onTimeout_dateStr, Luxon.nowIn. rewrite constant.
  rewrite (plusDays_constant _ c) by exact constant.
  rewrite startOfDay_at_constant_offset, toISODate_isoOfDay. f_equal.
  unfold Luxon.localTS. cbn [Luxon.ts Luxon.o].
  set (l := clock w + -1 * Luxon.MS_PER_DAY + c * Luxon.MS_PER_MINUTE).
  replace (clock w + -1 * Luxon.MS_PER_DAY - l mod Luxon.MS_PER_DAY
           + c * Luxon.MS_PER_MINUTE)
    with (l - l mod Luxon.MS_PER_DAY) by (unfold l; lia).
  replace (clock w + c * Luxon.MS_PER_MINUTE)
    with (l + 1 * Luxon.MS_PER_DAY) by (unfold l; lia).
  rewrite Z.div_add by discriminate.
  pose proof (Z.div_mod l Luxon.MS_PER_DAY ltac:(discriminate)) as Hl.
  replace (l - l mod Luxon.MS_PER_DAY) with (l / Luxon.MS_PER_DAY * Luxon.MS_PER_DAY)
    by lia.
  rewrite Z_div_mult by reflexivity. lia.
Qed.

(** X2. In a zone at a constant offset, a timer armed for a local midnight
    that fires less than 24 hours late makes the callback roll over the
    local day that ended at that midnight: the date string it computes is
    the date of the day before, the callback does call [runForDate] with
    it, and the window of the records of that rollover is the 24 hours
    before the instant the timer was due, less the last millisecond. *)
Theorem scheduled_rollover_covers_the_day_before stop t late w :
  timers w = [t] -> awaiting w = None -> clock w <= due t ->
  (due t + c * Luxon.MS_PER_MINUTE) mod Luxon.MS_PER_DAY = 0 ->
  Z.of_N late < Luxon.MS_PER_DAY ->
  Luxon.MS_PER_DAY <= due t + c * Luxon.MS_PER_MINUTE < 240000000000000 ->
  exists dateStr,
    awaiting (step zoneOffset stop (TimerFires (handle t) late) w) = Some dateStr /\
    dateStr = isoOfDay ((due t + c * Luxon.MS_PER_MINUTE) / Luxon.MS_PER_DAY - 1) /\
    onTimeout_await zoneOffset dateStr = runForDate zoneOffset dateStr /\
    forall now,
      dayWindow zoneOffset now dateStr
        = (Some (due t - Luxon.MS_PER_DAY), Some (due t - 1)).
Proof.
  intros Ht Ha Hclock Hmid Hlate Hrange.
  set (k := (due t + c * Luxon.MS_PER_MINUTE) / Luxon.MS_PER_DAY).
  assert (Hk : due t + c * Luxon.MS_PER_MINUTE = k * Luxon.MS_PER_DAY).
  { pose proof (Z.div_mod (due t + c * Luxon.MS_PER_MINUTE) Luxon.MS_PER_DAY
                  ltac:(discriminate)). unfold k. lia. }
  assert (Hk1 : 1 <= k < 2777778).
  { unfold Luxon.MS_PER_DAY in *. lia. }
  exists (isoOfDay (k - 1)).
  assert (Hparse : Luxon.parseISODate (isoOfDay (k - 1))
                   = Some (Luxon.civilFromDays (k - 1)))
    by (apply parseISODate_isoOfDay; lia).
  split; [|split; [reflexivity|split]].
  - unfold step. rewrite Ht, Ha. cbn [List.find handle].
    rewrite Nat.eqb_refl. cbn [awaiting setAwaiting].
    rewrite onTimeout_dateStr_at_constant_offset. cbn [clock setClock].
    do 3 f_equal. rewrite Z.max_r by exact Hclock.
    replace (due t + Z.of_N late + c * Luxon.MS_PER_MINUTE)
      with (Z.of_N late + k * Luxon.MS_PER_DAY) by lia.
    rewrite Z.div_add by discriminate.
    rewrite Z.div_small by lia. lia.
  - unfold onTimeout_await.
    destruct (String.eqb_spec (isoOfDay (k - 1)) "") as [E|_]; [|reflexivity].
    rewrite E in Hparse. discriminate.
  - intros now. pose proof (daysFromCivil_civilFromDays (k - 1)) as Hciv.
    destruct (Luxon.civilFromDays (k - 1)) as [[y m] d].
    destruct Hciv as (Hday & _).
    rewrite (dayWindow_constant_offset zoneOffset now _ c y m d constant Hparse).
    cbv zeta. rewrite Hday. unfold Luxon.MS_PER_DAY in *. do 2 f_equal; lia.
Qed.

End ConstantOffset.

(** *** A rollover as a fetch and a list of writes *)

Lemma forOf_app {A : Type} (xs ys : list A) (body : A -> Job unit) w :
  forOf (xs ++ ys) body w = bind (forOf xs body) (fun _ => forOf ys body) w.
Proof.
  revert w. induction xs as [|x xs IH]; intros w; [reflexivity|].
  cbn [app forOf]. rewrite !bind_unfold.
  destruct (body x w) as [[[]|e] w1]; [|reflexivity]. rewrite IH. reflexivity.
Qed.

Lemma forOf_fmap {A B : Type} (f : A -> B) (xs : list A) (body : B -> Job unit) w :
  forOf (f <$> xs) body w = forOf xs (fun x => body (f x)) w.
Proof.
  revert w. induction xs as [|x xs IH]; intros w; [reflexivity|].
  cbn [fmap list_fmap forOf]. rewrite !bind_unfold.
  destruct (body (f x) w) as [[[]|e] w1]; [apply IH | reflexivity].
Qed.

Lemma bind_ret_tt (m : Job unit) w : bind m (fun _ => ret tt) w = m w.
Proof. rewrite bind_unfold. by destruct (m w) as [[[]|e] w1]. Qed.

Lemma applyWrites_save hs ds :
  applyWrites (save_historico <$> hs) ds = appendHistoricos hs ds.
Proof.
  revert ds. induction hs as [|h hs IH]; intros ds.
  - by rewrite appendHistoricos_nil.
  - cbn [fmap list_fmap applyWrites fold_left].
    rewrite appendHistoricos_cons. apply IH.
Qed.

Lemma applyWrites_app fs gs ds :
  applyWrites (fs ++ gs) ds = applyWrites gs (applyWrites fs ds).
Proof. apply fold_left_app. Qed.

Section Writes.

Variable zoneOffset : string -> Z -> Z.

(** Either [try] block is the fetch followed by the writes of the
    rollover, each one a call of its own. *)
Lemma tryBlock_as_writes ep d w :
  tryBlock zoneOffset ep d w =
  match avalRepo.find d w with
  | (Returned avals, w1) =>
      forOf
        ((save_historico <$> flat_map (snapshotsOf zoneOffset (clock w1) d) avals)
           ++ [update_leitos PENDENTE; update_avaliacoes EXPIRADA d])
        write w1
  | (Thrown e, w1) => (Thrown e, w1)
  end.
Proof.
  rewrite tryBlock_manual. unfold runSessionExpiryForDate_try.
  rewrite bind_unfold. destruct (avalRepo.find d w) as [[avals|e] w1]; [|reflexivity].
  rewrite bind_unfold. cbn [Date_now].
  pose proof (manual_for_historicos zoneOffset (clock w1) d avals [] ∅) as Hfor.
  destruct (manual_for zoneOffset (clock w1) d avals [] ∅) as [hs ids].
  simpl in Hfor. subst hs.
  rewrite forOf_app. rewrite !bind_unfold. rewrite guarded_forOf, forOf_fmap.
  destruct (forOf _ _ w1) as [[[]|e] w2]; [|reflexivity].
  cbn [forOf]. rewrite !bind_unfold.
  unfold leitoRepo.updateStatus, avalRepo.updateStatusSessaoWhereData, write.
  destruct (query _ w2) as [[[]|e] w3]; [|reflexivity].
  rewrite bind_unfold. by destruct (query _ w3) as [[[]|e] w4].
Qed.

(** A list of writes whose call number [n] fails: the writes before it
    are made, the others are not. *)
Lemma forOf_write_fails ws n e rest w :
  faults w = replicate n None ++ Some e :: rest ->
  (n < length ws)%nat ->
  forOf ws write w
    = (Thrown e, setDb (applyWrites (take n ws) (db w)) (setFaults rest w)).
Proof.
  revert n w. induction ws as [|f ws IH]; intros n w Hf Hn; [simpl in Hn; lia|].
  cbn [forOf]. rewrite bind_unfold. unfold write at 1, query. rewrite Hf.
  destruct n as [|n]; [reflexivity|].
  cbn [replicate app head tail].
  rewrite (IH n); [reflexivity | reflexivity | simpl in Hn; lia].
Qed.

Lemma find_avaliacoes_Returned d w :
  avalRepo.find d w
    = (Returned (find_avaliacoes d (db w)), setFaults (tail (faults w)) w)
  \/ exists e, head (faults w) = Some (Some e).
Proof.
  unfold avalRepo.find, query.
  destruct (faults w) as [|[e|] fs] eqn:E; cbn [head tail]; eauto.
  all: left; f_equal; unfold setDb, setFaults; simpl; by rewrite ?E.
Qed.

Lemma tryBlock_fails_at ep d w n e rest :
  faults w = replicate (S n) None ++ Some e :: rest ->
  (n < length (writesOf zoneOffset (clock w) d (db w)))%nat ->
  tryBlock zoneOffset ep d w =
    (Thrown e,
     setDb (applyWrites (take n (writesOf zoneOffset (clock w) d (db w))) (db w))
       (setFaults rest w)).
Proof.
  intros Hf Hn. rewrite tryBlock_as_writes.
  destruct (find_avaliacoes_Returned d w) as [-> | [e' He']];
    [|rewrite Hf in He'; discriminate].
  rewrite Hf. cbn [replicate app tail].
  exact (forOf_write_fails _ n e rest
           (setFaults (replicate n None ++ Some e :: rest) w) eq_refl Hn).
Qed.

(** X3. No write of a rollover is undone.  When the call number [n + 1]
    after the fetch fails, the [n] writes before it, in the order
    save, ..., save, bulk update of the beds, bulk update of the sessions,
    are in the data source and nothing else is; the manual entry point
    throws the error, the scheduler's returns. *)
Theorem writes_before_a_failure_stay ep d w n e rest :
  faults w = replicate (S n) None ++ Some e :: rest ->
  (n < length (writesOf zoneOffset (clock w) d (db w)))%nat ->
  db (snd (rollover zoneOffset ep d w))
    = applyWrites (take n (writesOf zoneOffset (clock w) d (db w))) (db w) /\
  fst (rollover zoneOffset ep d w)
    = match ep with Manual => Thrown e | Scheduler => Returned tt end.
Proof.
  intros Hf Hn. pose proof (tryBlock_fails_at ep d w n e rest Hf Hn) as H.
  destruct ep; simpl in *;
    unfold runSessionExpiryForDate, runForDate, tryCatch; rewrite H; by split.
Qed.

(** X4. When the last call, the bulk update of the sessions, fails, the
    rollover has written every history record and set every bed to
    [PENDENTE], and no assessment is expired. *)
Theorem failed_session_update_leaves_beds_reset ep d w e rest :
  faults w =
    replicate (callsOf d w - 1) None ++ Some e :: rest ->
  let w' := snd (rollover zoneOffset ep d w) in
  historicos (db w') =
    historicos (db w)
      ++ flat_map (snapshotsOf zoneOffset (clock w) d) (assessmentsOn d w) /\
  leitos (db w') = setStatusLeito PENDENTE <$> leitos (db w) /\
  avaliacoes (db w') = avaliacoes (db w).
Proof.
  intros Hf.
  set (hs := flat_map (snapshotsOf zoneOffset (clock w) d) (assessmentsOn d w)).
  assert (Hlen : length hs = sum_list (owed <$> assessmentsOn d w))
    by apply length_flat_map_snapshotsOf.
  assert (Hf' : faults w = replicate (S (S (length hs))) None ++ Some e :: rest).
  { rewrite Hf. f_equal. f_equal. unfold callsOf. lia. }
  pose proof (tryBlock_fails_at ep d w (S (length hs)) e rest Hf') as H.
  unfold writesOf in H. fold (assessmentsOn d w) in H. fold hs in H.
  rewrite length_app, length_fmap in H. specialize (H ltac:(simpl; lia)).
  rewrite take_app_ge in H by (rewrite length_fmap; lia).
  rewrite length_fmap in H.
  replace (S (length hs) - length hs)%nat with 1%nat in H by lia.
  cbn [take] in H. rewrite applyWrites_app, applyWrites_save in H.
  cbn [applyWrites fold_left] in H.
  cbv zeta.
  destruct ep; simpl in *;
    unfold runSessionExpiryForDate, runForDate, tryCatch; rewrite H;
    by repeat split.
Qed.

End Writes.

(** *** What a rollover leaves alone *)

Lemma rolloverMayWrite_refl ds : rolloverMayWrite ds ds.
Proof.
  repeat split; try reflexivity; apply Forall_Forall2_diag, Forall_forall; done.
Qed.

Lemma rolloverMayWrite_trans ds1 ds2 ds3 :
  rolloverMayWrite ds1 ds2 -> rolloverMayWrite ds2 ds3 -> rolloverMayWrite ds1 ds3.
Proof.
  intros (Hu & Hh & Ha & Hp & Hl & Hr) (Hu' & Hh' & Ha' & Hp' & Hl' & Hr').
  repeat split; try congruence.
  - by transitivity (historicos ds2).
  - eapply Forall2_trans; [| exact Hl | exact Hl'].
    simpl. intros l1 l2 l3 [? ?] [? ?]. split; congruence.
  - eapply Forall2_trans; [| exact Hr | exact Hr'].
    simpl. intros r1 r2 r3 ? ?. congruence.
Qed.

Lemma rolloverMayWrite_save h ds : rolloverMayWrite ds (save_historico h ds).
Proof.
  repeat split; try reflexivity.
  - by apply prefix_app_r.
  - apply Forall_Forall2_diag, Forall_forall; done.
  - apply Forall_Forall2_diag, Forall_forall; done.
Qed.

Lemma rolloverMayWrite_leitos s ds : rolloverMayWrite ds (update_leitos s ds).
Proof.
  repeat split; try reflexivity.
  - simpl. apply Forall2_fmap_r, Forall_Forall2_diag, Forall_forall; done.
  - apply Forall_Forall2_diag, Forall_forall; done.
Qed.

Lemma rolloverMayWrite_avaliacoes s d ds :
  rolloverMayWrite ds (update_avaliacoes s d ds).
Proof.
  repeat split; try reflexivity.
  - apply Forall_Forall2_diag, Forall_forall; done.
  - simpl. apply Forall2_fmap_r, Forall_Forall2_diag, Forall_forall.
    intros r _. unfold compose. by destruct (onDate d r).
Qed.

Lemma writesWithin_query {A : Type} (f : DataSource -> A * DataSource) :
  (forall ds, rolloverMayWrite ds (snd (f ds))) -> writesWithin (query f).
Proof.
  intros Hf w o w'. unfold query. specialize (Hf (db w)).
  destruct (head (faults w)) as [[e|]|], (f (db w)) as [a ds];
    intros [= <- <-]; simpl; auto using rolloverMayWrite_refl.
Qed.

Lemma writesWithin_ret {A : Type} (a : A) : writesWithin (ret a).
Proof. intros w o w' [= <- <-]. apply rolloverMayWrite_refl. Qed.

Lemma writesWithin_bind {A B : Type} (m : Job A) (k : A -> Job B) :
  writesWithin m -> (forall a, writesWithin (k a)) -> writesWithin (bind m k).
Proof.
  intros Hm Hk w o w'. unfold bind.
  destruct (m w) as [[a|e] w1] eqn:E; intros H.
  - eapply rolloverMayWrite_trans; [eapply Hm, E | eapply Hk, H].
  - injection H as <- <-. eapply Hm, E.
Qed.

Lemma writesWithin_forOf {A : Type} (xs : list A) (body : A -> Job unit) :
  (forall x, writesWithin (body x)) -> writesWithin (forOf xs body).
Proof.
  intros Hb. induction xs as [|x xs IH]; simpl.
  - apply writesWithin_ret.
  - apply writesWithin_bind; auto.
Qed.

Section Frame.

Variable zoneOffset : string -> Z -> Z.

Lemma writesWithin_tryBlock ep d : writesWithin (tryBlock zoneOffset ep d).
Proof.
  intros w o w'. rewrite tryBlock_manual. revert w o w'.
  unfold runSessionExpiryForDate_try, avalRepo.find, histRepo.save,
    leitoRepo.updateStatus, avalRepo.updateStatusSessaoWhereData.
  apply writesWithin_bind.
  { apply writesWithin_query. intros ds. apply rolloverMayWrite_refl. }
  intros avals. apply writesWithin_bind.
  { intros w o w' [= <- <-]. apply rolloverMayWrite_refl. }
  intros now. destruct (manual_for _ _ _ _ _ _) as [hs ids].
  apply writesWithin_bind.
  - destruct (negb _); [|apply writesWithin_ret].
    apply writesWithin_forOf. intros h. apply writesWithin_query.
    intros ds. apply rolloverMayWrite_save.
  - intros _. apply writesWithin_bind.
    + apply writesWithin_query. intros ds. apply rolloverMayWrite_leitos.
    + intros _. apply writesWithin_query. intros ds.
      apply rolloverMayWrite_avaliacoes.
Qed.

(** X5. However a rollover ends, from either entry point, it has not
    touched the units, the hospitals or the authors, it has not removed or
    changed a row of the history table (the old table is a prefix of the
    new), and the beds and the assessments are the same rows in the same
    order, equal to what they were up to the status of a bed and the
    session status of an assessment. *)
Theorem rollover_only_appends_and_sets_statuses ep d w :
  rolloverMayWrite (db w) (db (snd (rollover zoneOffset ep d w))).
Proof.
  destruct (tryBlock zoneOffset ep d w) as [[[]|e] w1] eqn:E;
    pose proof (writesWithin_tryBlock ep d _ _ _ E) as H;
    destruct ep; simpl in *;
    unfold runSessionExpiryForDate, runForDate, tryCatch; rewrite E; exact H.
Qed.

(** X6. The record of an assessment keeps the bed as the fetch found it:
    its bed is a row of the bed table as it was before the rollover, and
    its [leitoStatus] and [leitoNumero] are the status and the number of
    that row, not the [PENDENTE] the rollover then writes. *)
Theorem snapshot_keeps_the_bed_as_fetched ep d w w' :
  tryBlock zoneOffset ep d w = (Returned tt, w') ->
  exists created,
    historicos (db w') = historicos (db w) ++ created /\
    Forall
      (fun h =>
         HistoricoOcupacao.leito h ∈ leitos (db w) /\
         HistoricoOcupacao.leitoStatus h = Leito.status (HistoricoOcupacao.leito h) /\
         HistoricoOcupacao.leitoNumero h = Leito.numero (HistoricoOcupacao.leito h))
      created.
Proof.
  intros H. apply tryBlock_Returned in H.
  exists (flat_map (snapshotsOf zoneOffset (clock w) d) (assessmentsOn d w)).
  split; [by rewrite H, historicos_rolled|].
  apply Forall_forall. intros h [a [Ha Hh]]%list_elem_of_In%in_flat_map.
  apply list_elem_of_In, elem_of_assessmentsOn in Ha as (r & _ & _ & ->).
  unfold snapshotsOf in Hh.
  destruct (AvaliacaoSCP.leito (loadAvaliacao (db w) r)) as [l|] eqn:El;
    [|destruct Hh].
  destruct Hh as [<- | []]. cbn [HistoricoOcupacao.leito
    HistoricoOcupacao.leitoStatus HistoricoOcupacao.leitoNumero manual_h].
  split; [|by split].
  cbn [loadAvaliacao AvaliacaoSCP.leito] in El.
  destruct (AvaliacaoRow.leitoId r) as [k|]; [|discriminate].
  cbn in El. unfold byId in El. apply find_some in El as [El _].
  by apply list_elem_of_In.
Qed.

(** X7. A rollover of a day without assessments still resets every bed:
    run to its end, it leaves the history table and the assessments as they
    were and every bed [PENDENTE]. *)
Theorem empty_day_still_resets_the_beds ep d w w' :
  assessmentsOn d w = [] ->
  tryBlock zoneOffset ep d w = (Returned tt, w') ->
  historicos (db w') = historicos (db w) /\
  avaliacoes (db w') = avaliacoes (db w) /\
  leitos (db w') = setStatusLeito PENDENTE <$> leitos (db w).
Proof.
  intros He H. apply tryBlock_Returned in H. rewrite H.
  rewrite historicos_rolled, avaliacoes_rolled, leitos_rolled.
  fold (assessmentsOn d w). rewrite He. cbn [flat_map].
  split; [by rewrite app_nil_r|]. split; [|reflexivity].
  unfold assessmentsOn, find_avaliacoes in He. apply fmap_nil_inv in He.
  rewrite <- (list_fmap_id (avaliacoes (db w))) at 2.
  apply Forall_fmap_ext_1, Forall_forall. intros r Hr.
  destruct (onDate d r) eqn:Ed; [|reflexivity].
  assert (Hin : In r (List.filter (onDate d) (avaliacoes (db w))))
    by (apply filter_In; split; [by apply list_elem_of_In | exact Ed]).
  rewrite He in Hin. destruct Hin.
Qed.

(** X8. A second rollover of the same day changes nothing but the history
    table: the beds and the assessments it leaves are those the first one
    left. *)
Theorem second_run_changes_only_the_history ep1 ep2 d w w1 w2 :
  tryBlock zoneOffset ep1 d w = (Returned tt, w1) ->
  tryBlock zoneOffset ep2 d w1 = (Returned tt, w2) ->
  leitos (db w2) = leitos (db w1) /\
  avaliacoes (db w2) = avaliacoes (db w1) /\
  unidades (db w2) = unidades (db w1) /\
  hospitais (db w2) = hospitais (db w1) /\
  autores (db w2) = autores (db w1).
Proof.
  intros H1 H2. apply tryBlock_Returned in H1, H2. rewrite H2, H1.
  rewrite !leitos_rolled, !avaliacoes_rolled.
  split; [|split; [|by repeat split]].
  - rewrite <- list_fmap_compose. apply Forall_fmap_ext_1, Forall_forall.
    by intros l _.
  - rewrite <- list_fmap_compose. apply Forall_fmap_ext_1, Forall_forall.
    intros r _. unfold compose. destruct (onDate d r) eqn:E; [|by rewrite E].
    by destruct (onDate d (AvaliacaoRow.setStatusSessao EXPIRADA r)).
Qed.

End Frame.

(** *** Calls and retries *)

Section Calls.

Variable zoneOffset : string -> Z -> Z.

Lemma makesCalls_writes ws : makesCalls (length ws) (forOf ws write).
Proof. apply makesCalls_forOf. intros f. apply makesCalls_query. Qed.

(** X9. A rollover that runs to its end has made exactly one call to the
    data source for the fetch, one for every assessment of the day that
    has a bed and two for the bulk updates, and has left the console, the
    clock and the timers as they were. *)
Theorem completed_rollover_makes_callsOf_calls ep d w w' :
  tryBlock zoneOffset ep d w = (Returned tt, w') ->
  faults w' = drop (callsOf d w) (faults w) /\ sameHost w w'.
Proof.
  intros H. split; [|exact (keepsHost_tryBlock zoneOffset ep d _ _ _ H)].
  rewrite tryBlock_as_writes in H.
  destruct (find_avaliacoes_Returned d w) as [E | [e He]].
  - rewrite E in H. cbn [clock setFaults] in H.
    match type of H with forOf ?ws _ ?w1 = _ =>
      pose proof (makesCalls_writes ws w1) as Hc;
      assert (Hlen : length ws = (sum_list (owed <$> assessmentsOn d w) + 2)%nat)
    end.
    { rewrite length_app, length_fmap.
      by rewrite (length_flat_map_snapshotsOf zoneOffset). }
    rewrite H in Hc. destruct (firstFault _ _) as [e|].
    + destruct Hc as [w'' Hc]. discriminate.
    + destruct Hc as (a & w'' & Heq & Hc). injection Heq as _ <-.
      rewrite Hc, Hlen.
      cbn [faults setFaults]. unfold callsOf.
      destruct (faults w); [cbn [tail]; by rewrite !drop_nil | reflexivity].
  - unfold avalRepo.find, query in H. rewrite He in H. discriminate.
Qed.

(** X10. A rollover is not resumed where it failed.  When it fails at a
    [save] or at the bulk update of the beds, after [n] records were
    saved, and is then run again to its end, the history table holds those
    [n] records and, after them, all the records of the day: the first [n]
    are there twice. *)
Theorem retry_saves_the_saved_records_again ep1 ep2 d w n e rest w2 :
  faults w = replicate (S n) None ++ Some e :: rest ->
  (n <= length (flat_map (snapshotsOf zoneOffset (clock w) d) (assessmentsOn d w)))%nat ->
  tryBlock zoneOffset ep2 d (snd (rollover zoneOffset ep1 d w)) = (Returned tt, w2) ->
  historicos (db w2) =
    historicos (db w)
      ++ take n (flat_map (snapshotsOf zoneOffset (clock w) d) (assessmentsOn d w))
      ++ flat_map (snapshotsOf zoneOffset (clock w) d) (assessmentsOn d w).
Proof.
  intros Hf Hn H2.
  set (hs := flat_map (snapshotsOf zoneOffset (clock w) d) (assessmentsOn d w)) in *.
  pose proof (tryBlock_fails_at zoneOffset ep1 d w n e rest Hf) as H1.
  unfold writesOf in H1. fold (assessmentsOn d w) in H1. fold hs in H1.
  rewrite length_app, length_fmap in H1. specialize (H1 ltac:(simpl; lia)).
  rewrite take_app_le in H1 by (rewrite length_fmap; lia).
  rewrite <- fmap_take, applyWrites_save in H1.
  assert (Hdb : db (snd (rollover zoneOffset ep1 d w))
                = appendHistoricos (take n hs) (db w)
                /\ clock (snd (rollover zoneOffset ep1 d w)) = clock w).
  { destruct ep1; simpl in *;
      unfold runSessionExpiryForDate, runForDate, tryCatch; rewrite H1;
      by split. }
  destruct Hdb as [Hdb Hclock].
  apply tryBlock_Returned in H2. rewrite H2, historicos_rolled, Hdb, Hclock.
  cbn [historicos appendHistoricos]. by rewrite <- app_assoc.
Qed.

End Calls.

(** *** The further properties on the small hospital *)

Lemma scheduleNext_arms_the_next_local_midnight_witness :
  (forall t, Sample.zone ZONE t = -180) /\
  scheduleNext Sample.zone Sample.world =
    (nextHandle Sample.world,
     setTimers
       (timers Sample.world
          ++ [mkTimer (nextHandle Sample.world)
                (nextLocalMidnight (-180) (clock Sample.world))])
       (S (nextHandle Sample.world)) Sample.world) /\
  clock Sample.world < nextLocalMidnight (-180) (clock Sample.world)
    <= clock Sample.world + Luxon.MS_PER_DAY /\
  (nextLocalMidnight (-180) (clock Sample.world) + -180 * Luxon.MS_PER_MINUTE)
    mod Luxon.MS_PER_DAY = 0.
Proof.
  split; [reflexivity|].
  apply (scheduleNext_arms_the_next_local_midnight Sample.zone (-180)).
  reflexivity.
Defined.

Lemma scheduled_rollover_covers_the_day_before_witness :
  (forall t, Sample.zone ZONE t = -180) /\
  timers MoreSamples.worldArmed = [MoreSamples.firstTimer] /\
  awaiting MoreSamples.worldArmed = None /\
  clock MoreSamples.worldArmed <= due MoreSamples.firstTimer /\
  (due MoreSamples.firstTimer + -180 * Luxon.MS_PER_MINUTE) mod Luxon.MS_PER_DAY = 0 /\
  Z.of_N 3 < Luxon.MS_PER_DAY /\
  Luxon.MS_PER_DAY <= due MoreSamples.firstTimer + -180 * Luxon.MS_PER_MINUTE
    < 240000000000000 /\
  exists dateStr,
    awaiting
      (step Sample.zone (clearTimeout 1)
         (TimerFires (handle MoreSamples.firstTimer) 3) MoreSamples.worldArmed)
      = Some dateStr /\
    dateStr =
      isoOfDay
        ((due MoreSamples.firstTimer + -180 * Luxon.MS_PER_MINUTE)
           / Luxon.MS_PER_DAY - 1) /\
    onTimeout_await Sample.zone dateStr = runForDate Sample.zone dateStr /\
    forall now,
      dayWindow Sample.zone now dateStr
        = (Some (due MoreSamples.firstTimer - Luxon.MS_PER_DAY),
           Some (due MoreSamples.firstTimer - 1)).
Proof.
  assert (H1 : forall t, Sample.zone ZONE t = -180) by reflexivity.
  assert (H2 : timers MoreSamples.worldArmed = [MoreSamples.firstTimer])
    by (vm_compute; reflexivity).
  assert (H3 : awaiting MoreSamples.worldArmed = None) by reflexivity.
  assert (H4 : clock MoreSamples.worldArmed <= due MoreSamples.firstTimer)
    by (simpl; lia).
  assert (H5 : (due MoreSamples.firstTimer + -180 * Luxon.MS_PER_MINUTE)
                 mod Luxon.MS_PER_DAY = 0) by reflexivity.
  assert (H6 : Z.of_N 3 < Luxon.MS_PER_DAY) by reflexivity.
  assert (H7 : Luxon.MS_PER_DAY
               <= due MoreSamples.firstTimer + -180 * Luxon.MS_PER_MINUTE
               < 240000000000000)
    by (unfold Luxon.MS_PER_DAY, Luxon.MS_PER_MINUTE; simpl; lia).
  repeat (split; [assumption|]).
  exact (scheduled_rollover_covers_the_day_before Sample.zone (-180) H1
           (clearTimeout 1) MoreSamples.firstTimer 3 MoreSamples.worldArmed
           H2 H3 H4 H5 H6 H7).
Defined.

(** The date of that rollover is 2024-03-10. *)
Example date_of_the_first_scheduled_rollover :
  awaiting
    (step Sample.zone (clearTimeout 1) (TimerFires 1 3) MoreSamples.worldArmed)
  = Some "2024-03-10".
Proof. vm_compute. reflexivity. Qed.

Lemma writes_before_a_failure_stay_witness :
  faults Sample.worldSaveFails
    = replicate 2 None ++ Some "deadlock detected" :: [] /\
  (1 < length (writesOf Sample.zone (clock Sample.worldSaveFails) "2024-03-10"
                 (db Sample.worldSaveFails)))%nat /\
  db (snd (rollover Sample.zone Scheduler "2024-03-10" Sample.worldSaveFails))
    = applyWrites
        (take 1 (writesOf Sample.zone (clock Sample.worldSaveFails) "2024-03-10"
                   (db Sample.worldSaveFails)))
        (db Sample.worldSaveFails) /\
  fst (rollover Sample.zone Scheduler "2024-03-10" Sample.worldSaveFails)
    = Returned tt.
Proof.
  split; [reflexivity|]. split; [vm_compute; lia|].
  apply (writes_before_a_failure_stay Sample.zone Scheduler "2024-03-10"
           Sample.worldSaveFails 1 "deadlock detected" []).
  - reflexivity.
  - vm_compute. lia.
Defined.

Lemma failed_session_update_leaves_beds_reset_witness :
  faults MoreSamples.worldSessionUpdateFails =
    replicate (callsOf "2024-03-10" MoreSamples.worldSessionUpdateFails - 1) None
      ++ Some "statement timeout" :: [] /\
  let w' :=
    snd (rollover Sample.zone Manual "2024-03-10"
           MoreSamples.worldSessionUpdateFails) in
  historicos (db w') =
    historicos (db MoreSamples.worldSessionUpdateFails)
      ++ flat_map
           (snapshotsOf Sample.zone (clock MoreSamples.worldSessionUpdateFails)
              "2024-03-10")
           (assessmentsOn "2024-03-10" MoreSamples.worldSessionUpdateFails) /\
  leitos (db w')
    = setStatusLeito PENDENTE <$> leitos (db MoreSamples.worldSessionUpdateFails) /\
  avaliacoes (db w') = avaliacoes (db MoreSamples.worldSessionUpdateFails).
Proof.
  split; [vm_compute; reflexivity|].
  apply (failed_session_update_leaves_beds_reset Sample.zone Manual "2024-03-10"
           MoreSamples.worldSessionUpdateFails "statement timeout" []).
  vm_compute. reflexivity.
Defined.

Lemma snapshot_keeps_the_bed_as_fetched_witness :
  tryBlock Sample.zone Manual "2024-03-10" Sample.world
    = (Returned tt, Sample.worldRolled) /\
  exists created,
    historicos (db Sample.worldRolled)
      = historicos (db Sample.world) ++ created /\
    Forall
      (fun h =>
         HistoricoOcupacao.leito h ∈ leitos (db Sample.world) /\
         HistoricoOcupacao.leitoStatus h = Leito.status (HistoricoOcupacao.leito h) /\
         HistoricoOcupacao.leitoNumero h = Leito.numero (HistoricoOcupacao.leito h))
      created.
Proof.
  split; [vm_compute; reflexivity|].
  apply (snapshot_keeps_the_bed_as_fetched Sample.zone Manual "2024-03-10").
  vm_compute. reflexivity.
Defined.

Lemma empty_day_still_resets_the_beds_witness :
  assessmentsOn "2024-03-08" Sample.world = [] /\
  tryBlock Sample.zone Manual "2024-03-08" Sample.world
    = (Returned tt, MoreSamples.worldRolledEmptyDay) /\
  historicos (db MoreSamples.worldRolledEmptyDay) = historicos (db Sample.world) /\
  avaliacoes (db MoreSamples.worldRolledEmptyDay) = avaliacoes (db Sample.world) /\
  leitos (db MoreSamples.worldRolledEmptyDay)
    = setStatusLeito PENDENTE <$> leitos (db Sample.world).
Proof.
  split; [vm_compute; reflexivity|]. split; [vm_compute; reflexivity|].
  apply (empty_day_still_resets_the_beds Sample.zone Manual "2024-03-08");
    vm_compute; reflexivity.
Defined.

Lemma second_run_changes_only_the_history_witness :
  tryBlock Sample.zone Manual "2024-03-10" Sample.world
    = (Returned tt, Sample.worldRolled) /\
  tryBlock Sample.zone Manual "2024-03-10" Sample.worldRolled
    = (Returned tt, Sample.worldRolledTwice) /\
  leitos (db Sample.worldRolledTwice) = leitos (db Sample.worldRolled) /\
  avaliacoes (db Sample.worldRolledTwice) = avaliacoes (db Sample.worldRolled) /\
  unidades (db Sample.worldRolledTwice) = unidades (db Sample.worldRolled) /\
  hospitais (db Sample.worldRolledTwice) = hospitais (db Sample.worldRolled) /\
  autores (db Sample.worldRolledTwice) = autores (db Sample.worldRolled).
Proof.
  split; [vm_compute; reflexivity|]. split; [vm_compute; reflexivity|].
  apply (second_run_changes_only_the_history Sample.zone Manual Manual "2024-03-10"
           Sample.world); vm_compute; reflexivity.
Defined.

Lemma completed_rollover_makes_callsOf_calls_witness :
  tryBlock Sample.zone Manual "2024-03-10" MoreSamples.worldLaterFault
    = (Returned tt, MoreSamples.worldLaterFaultRolled) /\
  faults MoreSamples.worldLaterFaultRolled
    = drop (callsOf "2024-03-10" MoreSamples.worldLaterFault)
        (faults MoreSamples.worldLaterFault) /\
  sameHost MoreSamples.worldLaterFault MoreSamples.worldLaterFaultRolled.
Proof.
  split; [vm_compute; reflexivity|].
  apply (completed_rollover_makes_callsOf_calls Sample.zone Manual "2024-03-10").
  vm_compute. reflexivity.
Defined.

(** That rollover in figures: a script of seven answers, the sixth an
    error; the day has two assessments with a bed, so the rollover makes
    five calls and leaves the last two answers, the error first. *)
Example five_calls_of_a_rollover :
  faults MoreSamples.worldLaterFault
    = [None; None; None; None; None; Some "server restart"; None] /\
  callsOf "2024-03-10" MoreSamples.worldLaterFault = 5%nat /\
  faults MoreSamples.worldLaterFaultRolled = [Some "server restart"; None] /\
  length (historicos (db MoreSamples.worldLaterFaultRolled)) = 2%nat.
Proof. vm_compute. by repeat split. Qed.

Lemma retry_saves_the_saved_records_again_witness :
  faults Sample.worldSaveFails
    = replicate 2 None ++ Some "deadlock detected" :: [] /\
  (1 <= length
          (flat_map
             (snapshotsOf Sample.zone (clock Sample.worldSaveFails) "2024-03-10")
             (assessmentsOn "2024-03-10" Sample.worldSaveFails)))%nat /\
  tryBlock Sample.zone Manual "2024-03-10"
    (snd (rollover Sample.zone Scheduler "2024-03-10" Sample.worldSaveFails))
    = (Returned tt, MoreSamples.worldRetried) /\
  historicos (db MoreSamples.worldRetried) =
    historicos (db Sample.worldSaveFails)
      ++ take 1
           (flat_map
              (snapshotsOf Sample.zone (clock Sample.worldSaveFails) "2024-03-10")
              (assessmentsOn "2024-03-10" Sample.worldSaveFails))
      ++ flat_map
           (snapshotsOf Sample.zone (clock Sample.worldSaveFails) "2024-03-10")
           (assessmentsOn "2024-03-10" Sample.worldSaveFails).
Proof.
  split; [reflexivity|]. split; [vm_compute; lia|].
  split; [vm_compute; reflexivity|].
  apply (retry_saves_the_saved_records_again Sample.zone Scheduler Manual
           "2024-03-10" Sample.worldSaveFails 1 "deadlock detected" []).
  - reflexivity.
  - vm_compute. lia.
  - vm_compute. reflexivity.
Defined.

(** After the retry the first assessment has two records and the other
    one. *)
Example rows_after_the_retry :
  (fun h => Leito.id (HistoricoOcupacao.leito h))
    <$> historicos (db MoreSamples.worldRetried)
  = ["L1"; "L1"; "L3"].
Proof. vm_compute. reflexivity. Qed.

(** *** From one midnight to the next *)

Section Cycle.

Variable zoneOffset : string -> Z -> Z.
Variable c : Z.
Hypothesis constant : forall t, zoneOffset ZONE t = c.

Lemma clock_onTimeout_await dateStr w :
  clock (snd (onTimeout_await zoneOffset dateStr w)) = clock w /\
  timers (snd (onTimeout_await zoneOffset dateStr w)) = timers w /\
  nextHandle (snd (onTimeout_await zoneOffset dateStr w)) = nextHandle w.
Proof.
  unfold onTimeout_await. destruct (negb _); [|by repeat split].
  unfold runForDate, tryCatch.
  destruct (runForDate_try zoneOffset dateStr w) as [[[]|e] w1] eqn:E;
    apply (keepsHost_tryBlock zoneOffset Scheduler) in E;
    destruct E as (Hc & Ht & Hn & _); by repeat split.
Qed.

Lemma nextLocalMidnight_within_the_day m delta :
  (m + c * Luxon.MS_PER_MINUTE) mod Luxon.MS_PER_DAY = 0 ->
  0 <= delta < Luxon.MS_PER_DAY ->
  nextLocalMidnight c (m + delta) = m + Luxon.MS_PER_DAY.
Proof.
  intros Hm Hd. unfold nextLocalMidnight.
  replace (m + delta + c * Luxon.MS_PER_MINUTE)
    with (delta + (m + c * Luxon.MS_PER_MINUTE)) by lia.
  rewrite Zplus_mod, Hm, Z.add_0_r, Zmod_mod, Z.mod_small by exact Hd. lia.
Qed.

(** X11. The timers do not drift.  In a zone at a constant offset, when a
    timer due at a local midnight fires and its rollover settles, whether
    it failed or not, less than 24 hours after that midnight in all, the one
    timer armed next is due exactly 24 hours after the first, under the next
    handle. *)
Theorem next_timer_is_due_a_day_later stop t late elapsed w :
  timers w = [t] -> awaiting w = None -> clock w <= due t ->
  (due t + c * Luxon.MS_PER_MINUTE) mod Luxon.MS_PER_DAY = 0 ->
  Z.of_N late + Z.of_N elapsed < Luxon.MS_PER_DAY ->
  timers
    (step zoneOffset stop (RolloverSettles elapsed)
       (step zoneOffset stop (TimerFires (handle t) late) w))
  = [mkTimer (nextHandle w) (due t + Luxon.MS_PER_DAY)].
Proof.
  intros Ht Ha Hclock Hmid Hlate.
  assert (Hfire : exists dateStr w1,
            step zoneOffset stop (TimerFires (handle t) late) w
              = setAwaiting (Some dateStr) w1 /\
            clock w1 = due t + Z.of_N late /\ timers w1 = [] /\
            nextHandle w1 = nextHandle w).
  { unfold step. rewrite Ht, Ha. cbn [List.find handle].
    rewrite Nat.eqb_refl. eexists _, _. split; [reflexivity|].
    cbn [clock setClock timers nextHandle clearTimeout setTimers].
    rewrite Ht. cbn [List.filter]. rewrite Nat.eqb_refl.
    rewrite Z.max_r by exact Hclock. by repeat split. }
  destruct Hfire as (dateStr & w1 & -> & Hc1 & Ht1 & Hn1).
  unfold step. cbn [awaiting setAwaiting].
  destruct (clock_onTimeout_await dateStr
              (setAwaiting None (setAwaiting (Some dateStr) w1)))
    as (Hc2 & Ht2 & Hn2).
  set (w2 := snd (onTimeout_await zoneOffset dateStr
                    (setAwaiting None (setAwaiting (Some dateStr) w1)))) in *.
  cbn [clock timers nextHandle setAwaiting] in Hc2, Ht2, Hn2.
  rewrite (scheduleNext_at_constant_offset zoneOffset c constant
             (setClock (clock w2 + Z.of_N elapsed) w2)).
  cbn [snd timers setTimers setClock clock nextHandle].
  rewrite Ht2, Ht1, Hn2, Hn1, Hc2, Hc1. cbn [app]. do 2 f_equal.
  replace (due t + Z.of_N late + Z.of_N elapsed)
    with (due t + (Z.of_N late + Z.of_N elapsed)) by lia.
  apply nextLocalMidnight_within_the_day; [exact Hmid | lia].
Qed.

End Cycle.

Lemma next_timer_is_due_a_day_later_witness :
  (forall t, Sample.zone ZONE t = -180) /\
  timers MoreSamples.worldArmed = [MoreSamples.firstTimer] /\
  awaiting MoreSamples.worldArmed = None /\
  clock MoreSamples.worldArmed <= due MoreSamples.firstTimer /\
  (due MoreSamples.firstTimer + -180 * Luxon.MS_PER_MINUTE) mod Luxon.MS_PER_DAY = 0 /\
  Z.of_N 3 + Z.of_N 40 < Luxon.MS_PER_DAY /\
  timers
    (step Sample.zone (clearTimeout 1) (RolloverSettles 40)
       (step Sample.zone (clearTimeout 1)
          (TimerFires (handle MoreSamples.firstTimer) 3) MoreSamples.worldArmed))
  = [mkTimer (nextHandle MoreSamples.worldArmed)
       (due MoreSamples.firstTimer + Luxon.MS_PER_DAY)].
Proof.
  assert (H1 : forall t, Sample.zone ZONE t = -180) by reflexivity.
  assert (H2 : timers MoreSamples.worldArmed = [MoreSamples.firstTimer])
    by (vm_compute; reflexivity).
  assert (H3 : awaiting MoreSamples.worldArmed = None) by reflexivity.
  assert (H4 : clock MoreSamples.worldArmed <= due MoreSamples.firstTimer)
    by (simpl; lia).
  assert (H5 : (due MoreSamples.firstTimer + -180 * Luxon.MS_PER_MINUTE)
                 mod Luxon.MS_PER_DAY = 0) by reflexivity.
  assert (H6 : Z.of_N 3 + Z.of_N 40 < Luxon.MS_PER_DAY) by reflexivity.
  repeat (split; [assumption|]).
  exact (next_timer_is_due_a_day_later Sample.zone (-180) H1 (clearTimeout 1)
           MoreSamples.firstTimer 3 40 MoreSamples.worldArmed H2 H3 H4 H5 H6).
Defined.
